(** * The offline Reverie server: tick loop, tile-event bookkeeping, fork-and-load

    A shallow embedding of [reverie/backend_server/reverie_offline.py]:
    the constructor of [ReverieServer] (fork a snapshot folder, load it),
    [ReverieServer.start_server] (the tick loop) and [sim_frontend] (the
    headless environment bridge).

    Python objects that the server mutates live in one record, [World];
    the code is written in a state-and-exception monad over it, so that a
    raised exception leaves behind exactly the mutations made before it, as
    in Python. *)

From stdpp Require Import gmap strings pretty list fin_maps.
Local Open Scope Z_scope.

(** ** Values *)

(** A tile coordinate. *)
Abbreviation Tile := (Z * Z)%type.

(** An event tuple [(subject, predicate, object, description)]; the last
    three components are [None] in the blank (idle) form. *)
Record Event := mkEvent {
  ev_subject : string;
  ev_predicate : option string;
  ev_object : option string;
  ev_description : option string }.

#[global] Instance Event_eq_dec : EqDecision Event.
Proof. solve_decision. Defined.

(** [(e[0], None, None, None)] *)
Definition blank_of (e : Event) : Event := mkEvent (ev_subject e) None None None.

(** Exceptions that the modelled code can raise. *)
Inductive Exn :=
| KeyError (key : string)
| FileNotFoundError (path : string)
| FileExistsError (path : string)
| TypeError
| OverflowError
| PersonaError (msg : string).

(** ** Insertion-ordered dictionaries

    [dict] keeps insertion order and the loops of the server iterate over
    [items()]; assigning to a key that is present keeps its position. *)
Section odict.
Context {K V : Type} `{EqDecision K}.


Fixpoint oset (k : K) (v : V) (d : list (K * V)) : list (K * V) :=
  match d with
  | [] => [(k, v)]
  | (k', v') :: d' =>
      if decide (k = k') then (k, v) :: d' else (k', v') :: oset k v d'
  end.

End odict.

(** ** Personas (external collaborator)

    The server reads and writes a few attributes of [persona.scratch] and
    calls [perceive] and [move]; the rest of a persona is its own business. *)
Record Scratch := mkScratch {
  planned_path : list Tile;
  scratch_curr_tile : option Tile;
  scratch_curr_time : option Z;
  chat : option (list (string * string));
  get_curr_event_and_desc : Event;
  get_curr_obj_event_and_desc : Event }.

Record Persona := mkPersona {
  name : string;
  scratch : Scratch;
  a_mem : list Event }.

Definition with_scratch_tile_time (tile : Tile) (now : Z) (p : Persona) : Persona :=
  mkPersona (name p)
    (mkScratch (planned_path (scratch p)) (Some tile) (Some now)
       (chat (scratch p)) (get_curr_event_and_desc (scratch p))
       (get_curr_obj_event_and_desc (scratch p)))
    (a_mem p).

(** The [new_day] argument of [move]: [False], ["First day"] or ["New day"]. *)
Inductive NewDay := NotNewDay | FirstDay | NewDayStarted.

(** What [persona.move] returns. *)
Record MoveResult := mkMoveResult {
  next_tile : Tile;
  pronunciatio : string;
  description : string;
  plan : string }.

(** ** Persisted files *)

(** [reverie/meta.json]; datetimes are whole seconds counted from
    0001-01-01 00:00:00. *)
Record Meta := mkMeta {
  meta_fork_sim_code : string;
  meta_start_date : Z;
  meta_curr_time : Z;
  meta_sec_per_step : Z;
  meta_maze_name : string;
  meta_persona_names : list string;
  meta_step : Z }.

(** One agent's entry of [environment/<step>.json]: the constructor reads
    [entry["x"]], [entry["y"]], [entry["start_node"]]; [sim_frontend] writes
    the bare tile. *)
Inductive EnvEntry :=
| EnvNode (x y : Z) (start_node : Tile)
| EnvTile (tile : Tile).

#[global] Instance EnvEntry_eq_dec : EqDecision EnvEntry.
Proof. solve_decision. Defined.

(** One agent's entry of [movement/<step>.json]. *)
Record Movement := mkMovement {
  mv_movement : Tile;
  mv_pronunciatio : string;
  mv_description : string;
  mv_chat : option (list (string * string)) }.

(** [movements = {"persona": {...}, "meta": {...}}] *)
Record Movements := mkMovements {
  mv_persona : gmap string Movement;
  mv_meta_curr_time : option Z }.

(** The folder of one simulation under [fs_storage], by the name of the
    folder (a simulation code is taken to be a plain folder name).  Its
    subfolders are there when they hold a file: [reverie/] when [t_meta] is
    set, [environment/] when [t_environment] is not empty, and so on. *)
Record Tree := mkTree {
  t_meta : option Meta;
  t_environment : gmap Z (gmap string EnvEntry);
  t_movement : gmap Z Movements;
  t_personas : gmap string Persona }.

Definition empty_tree : Tree := mkTree None ∅ ∅ ∅.

(** [backend_data = {'time': ..., 'persona': {...}}] *)
Record BackendData := mkBackendData {
  bd_time : Z;
  bd_persona : gmap string Tile }.

(** ** The clock *)

(** [datetime.max] is 9999-12-31 23:59:59 at whole seconds. *)
Definition datetime_max : Z := 315537897599.

(** [t + datetime.timedelta(seconds=s)]: [OverflowError] outside
    [datetime.min .. datetime.max]. *)
Definition datetime_add (t s : Z) : option Z :=
  if decide (0 ≤ t + s ≤ datetime_max) then Some (t + s) else None.

(** [t.strftime('%a %b %d')], the day label that the tick loop compares. *)
Class Calendar := { strftime_a_b_d : Z → string }.

(** ** Calls on the maze *)
Inductive MazeCall :=
| AddEvent (e : Event) (tile : Tile)
| RemoveEvent (e : Event) (tile : Tile)
| TurnIdle (e : Event) (tile : Tile)
| RemoveSubject (subject : string) (tile : Tile).


(** [maze.turn_event_from_tile_idle(key, val)] for an entry of the ledger. *)
Definition idle_call (item : Event * Tile) : MazeCall := TurnIdle item.1 item.2.

(** The methods of [Maze] (module [maze_neo]) that the server calls. *)
Class MazeOps (Maze : Type) := {
  Maze_new : string → Maze;
  maze_name : Maze → string;
  add_event_from_tile : Event → Tile → Maze → Maze;
  remove_event_from_tile : Event → Tile → Maze → Maze;
  turn_event_from_tile_idle : Event → Tile → Maze → Maze;
  remove_subject_events_from_tile : string → Tile → Maze → Maze }.

(** The methods of [Persona] (module [persona.persona]) that the tick loop
    awaits; [inl e] is a raised exception.  Each returns the persona as it
    left it. *)
Class PersonaOps (Maze : Type) := {
  perceive : Persona → Maze → Exn + (Persona * list Event);
  move : Persona → Maze → list (string * Persona) → Tile → Z →
         list Event → NewDay → Exn + (Persona * MoveResult) }.

(** ** The world

    Everything the server can change: the attributes of the [ReverieServer]
    instance ([fork_sim_code] to [personas_tile]), the local variables of
    [start_server] ([int_counter] to [movements]), the module-level
    dictionary [frontend_pos] and the folders under [fs_storage].
    [maze_calls] is a history variable: the calls made on [self.maze], oldest
    first. *)
Section Reverie.
Context {Maze : Type} {maze_ops : MazeOps Maze}
  {persona_ops : PersonaOps Maze} {calendar : Calendar}.

Record World := mkWorld {
  fork_sim_code : string;
  sim_code : string;
  start_time : Z;
  curr_time : Z;
  sec_per_step : Z;
  maze : Maze;
  step : Z;
  personas : list (string * Persona);
  personas_tile : gmap string Tile;
  int_counter : Z;
  game_obj_cleanup : list (Event * Tile);
  backend_data : BackendData;
  movements : Movements;
  frontend_pos : gmap string Tile;
  fs_storage : gmap string Tree;
  maze_calls : list MazeCall }.

Definition set_curr_time (x : Z) (w : World) : World :=
  mkWorld
    (fork_sim_code w) (sim_code w) (start_time w) x (sec_per_step w) (maze w) (step w) (personas w) (personas_tile w) (int_counter w)
    (game_obj_cleanup w) (backend_data w) (movements w) (frontend_pos w)
    (fs_storage w) (maze_calls w).

Definition set_maze (x : Maze) (w : World) : World :=
  mkWorld
    (fork_sim_code w) (sim_code w) (start_time w) (curr_time w)
    (sec_per_step w) x (step w) (personas w) (personas_tile w)
    (int_counter w) (game_obj_cleanup w) (backend_data w) (movements w)
    (frontend_pos w) (fs_storage w) (maze_calls w).

Definition set_step (x : Z) (w : World) : World :=
  mkWorld
    (fork_sim_code w) (sim_code w) (start_time w) (curr_time w)
    (sec_per_step w) (maze w) x (personas w) (personas_tile w)
    (int_counter w) (game_obj_cleanup w) (backend_data w) (movements w)
    (frontend_pos w) (fs_storage w) (maze_calls w).

Definition set_personas (x : list (string * Persona)) (w : World) : World :=
  mkWorld
    (fork_sim_code w) (sim_code w) (start_time w) (curr_time w)
    (sec_per_step w) (maze w) (step w) x (personas_tile w) (int_counter w)
    (game_obj_cleanup w) (backend_data w) (movements w) (frontend_pos w)
    (fs_storage w) (maze_calls w).

Definition set_personas_tile (x : gmap string Tile) (w : World) : World :=
  mkWorld
    (fork_sim_code w) (sim_code w) (start_time w) (curr_time w)
    (sec_per_step w) (maze w) (step w) (personas w) x (int_counter w)
    (game_obj_cleanup w) (backend_data w) (movements w) (frontend_pos w)
    (fs_storage w) (maze_calls w).

Definition set_int_counter (x : Z) (w : World) : World :=
  mkWorld
    (fork_sim_code w) (sim_code w) (start_time w) (curr_time w)
    (sec_per_step w) (maze w) (step w) (personas w) (personas_tile w) x
    (game_obj_cleanup w) (backend_data w) (movements w) (frontend_pos w)
    (fs_storage w) (maze_calls w).

Definition set_game_obj_cleanup (x : list (Event * Tile)) (w : World) : World :=
  mkWorld
    (fork_sim_code w) (sim_code w) (start_time w) (curr_time w)
    (sec_per_step w) (maze w) (step w) (personas w) (personas_tile w)
    (int_counter w) x (backend_data w) (movements w) (frontend_pos w)
    (fs_storage w) (maze_calls w).

Definition set_backend_data (x : BackendData) (w : World) : World :=
  mkWorld
    (fork_sim_code w) (sim_code w) (start_time w) (curr_time w)
    (sec_per_step w) (maze w) (step w) (personas w) (personas_tile w)
    (int_counter w) (game_obj_cleanup w) x (movements w) (frontend_pos w)
    (fs_storage w) (maze_calls w).

Definition set_movements (x : Movements) (w : World) : World :=
  mkWorld
    (fork_sim_code w) (sim_code w) (start_time w) (curr_time w)
    (sec_per_step w) (maze w) (step w) (personas w) (personas_tile w)
    (int_counter w) (game_obj_cleanup w) (backend_data w) x 
    (frontend_pos w) (fs_storage w) (maze_calls w).

Definition set_frontend_pos (x : gmap string Tile) (w : World) : World :=
  mkWorld
    (fork_sim_code w) (sim_code w) (start_time w) (curr_time w)
    (sec_per_step w) (maze w) (step w) (personas w) (personas_tile w)
    (int_counter w) (game_obj_cleanup w) (backend_data w) (movements w) x
    (fs_storage w) (maze_calls w).

Definition set_fs_storage (x : gmap string Tree) (w : World) : World :=
  mkWorld
    (fork_sim_code w) (sim_code w) (start_time w) (curr_time w)
    (sec_per_step w) (maze w) (step w) (personas w) (personas_tile w)
    (int_counter w) (game_obj_cleanup w) (backend_data w) (movements w)
    (frontend_pos w) x (maze_calls w).

Definition set_maze_calls (x : list MazeCall) (w : World) : World :=
  mkWorld
    (fork_sim_code w) (sim_code w) (start_time w) (curr_time w)
    (sec_per_step w) (maze w) (step w) (personas w) (personas_tile w)
    (int_counter w) (game_obj_cleanup w) (backend_data w) (movements w)
    (frontend_pos w) (fs_storage w) x.
(** ** The monad: state, and exceptions that keep the state *)
Inductive Res (A : Type) :=
| Ok (a : A)
| Raise (e : Exn).
Arguments Ok {A} a.
Arguments Raise {A} e.

(** Whether a result is a return. *)
Definition returned {A} (r : Res A) : bool :=
  match r with
  | Ok _ => true
  | Raise _ => false
  end.

Definition M (A : Type) : Type := World → Res A * World.

Definition ret {A} (a : A) : M A := λ w, (Ok a, w).

Definition bind {A B} (m : M A) (k : A → M B) : M B :=
  λ w, match m w with
       | (Ok a, w') => k a w'
       | (Raise e, w') => (Raise e, w')
       end.

Definition raise {A} (e : Exn) : M A := λ w, (Raise e, w).

Definition gets {A} (f : World → A) : M A := λ w, (Ok (f w), w).

Definition modify (f : World → World) : M unit := λ w, (Ok tt, f w).

Declare Scope M_scope.
Delimit Scope M_scope with M.
Notation "x ← y ; z" := (bind y (λ x, z))
  (at level 20, y at level 100, z at level 200, only parsing) : M_scope.
Notation "' x ← y ; z" := (bind y (λ x, z))
  (at level 20, x pattern, y at level 100, z at level 200, only parsing) : M_scope.
Notation "x ;; z" := (bind x (λ _, z))
  (at level 100, z at level 200, only parsing, right associativity) : M_scope.
Local Open Scope M_scope.

(** [d[k]] on a dictionary with string keys: [KeyError] when absent. *)
Definition subscript {V} (d : gmap string V) (k : string) : M V :=
  match d !! k with
  | Some v => ret v
  | None => raise (KeyError k)
  end.

(** Awaiting a persona method: its exception propagates. *)
Definition await {A} (r : Exn + A) : M A :=
  match r with
  | inr a => ret a
  | inl e => raise e
  end.

(** [for x in l: f x] *)
Fixpoint for_each {A} (f : A → M unit) (l : list A) : M unit :=
  match l with
  | [] => ret tt
  | x :: l' => f x ;; for_each f l'
  end.

(** [for i, x in enumerate(l, start=i): f i x] *)
Fixpoint for_each_from {A} (i : nat) (f : nat → A → M unit) (l : list A) : M unit :=
  match l with
  | [] => ret tt
  | x :: l' => f i x ;; for_each_from (S i) f l'
  end.

(** What one call does to the maze object. *)
Definition apply_call (c : MazeCall) (mz : Maze) : Maze :=
  match c with
  | AddEvent e t => add_event_from_tile e t mz
  | RemoveEvent e t => remove_event_from_tile e t mz
  | TurnIdle e t => turn_event_from_tile_idle e t mz
  | RemoveSubject s t => remove_subject_events_from_tile s t mz
  end.

(** A call on [self.maze]. *)
Definition maze_call (c : MazeCall) : M unit :=
  modify (λ w, set_maze_calls (maze_calls w ++ [c])
                 (set_maze (apply_call c (maze w)) w)).

(** ** The environment bridge

    The tick loop obtains [frontend_data] from the module-level function
    [sim_frontend(frontend_pos, backend_data, self.step, self.sim_code)].  A
    bridge reads and writes [frontend_pos] and the storage folders only. *)
Definition Bridge : Type :=
  gmap string Tile → BackendData → Z → string → gmap string Tree →
  Res (option (gmap string Tile)) * gmap string Tile * gmap string Tree.

(** Writing [storage/<sim_code>/environment/<step>.json]: [open] fails when
    the folder of the simulation or its subfolder [environment/] is not
    there (nothing makes the subfolder, unlike [movement/]). *)
Definition write_environment (sim : string) (st : Z)
    (environment : gmap string Tile) (fs : gmap string Tree)
  : option (gmap string Tree) :=
  match fs !! sim with
  | Some t =>
      if decide (t_environment t = ∅) then None
      else
        Some (<[sim := mkTree (t_meta t)
                         (<[st := EnvTile <$> environment]> (t_environment t))
                         (t_movement t) (t_personas t)]> fs)
  | None => None
  end.

Definition sim_frontend : Bridge :=
  λ frontend_pos backend_data step sim_code fs,
    let persona_dict := bd_persona backend_data in
    (* for person_name, person_info in persona_dict.items():
         frontend_pos[person_name] = person_info *)
    let frontend_pos := persona_dict ∪ frontend_pos in
    let step := step + 1 in
    (* for k, v in persona_dict.items(): environment[k] = frontend_pos[k] *)
    let environment :=
      map_imap (λ k (_ : Tile), frontend_pos !! k) persona_dict in
    match write_environment sim_code step environment fs with
    | Some fs' => (Ok (Some environment), frontend_pos, fs')
    | None => (Raise (FileNotFoundError sim_code), frontend_pos, fs)
    end.

(** The call [sim_frontend(frontend_pos, backend_data, self.step,
    self.sim_code)] through a bridge [br]. *)
Definition poll (br : Bridge) : M (option (gmap string Tile)) :=
  λ w, match br (frontend_pos w) (backend_data w) (step w) (sim_code w)
                (fs_storage w) with
       | (r, fp, fs) => (r, set_fs_storage fs (set_frontend_pos fp w))
       end.

(** ** One tick of [start_server] *)

(** Lines 256-260: every pending object event is turned idle, then the
    ledger is emptied. *)
Definition cleanup_objects : M unit :=
  ledger ← gets game_obj_cleanup;
  for_each (λ '(key, val), maze_call (TurnIdle key val)) ledger;;
  modify (set_game_obj_cleanup []).

(** Lines 264-290, the body for one persona. *)
Definition move_persona (frontend_data : gmap string Tile)
    (item : string * Persona) : M unit :=
  let '(persona_name, persona) := item in
  tiles ← gets personas_tile;
  curr_tile ← subscript tiles persona_name;
  new_tile ← subscript frontend_data persona_name;
  modify (λ w, set_personas_tile (<[persona_name := new_tile]> (personas_tile w)) w);;
  maze_call (RemoveSubject (name persona) curr_tile);;
  maze_call (AddEvent (get_curr_event_and_desc (scratch persona)) new_tile);;
  match planned_path (scratch persona) with
  | [] =>
      let obj_event := get_curr_obj_event_and_desc (scratch persona) in
      modify (λ w, set_game_obj_cleanup
                     (oset obj_event new_tile (game_obj_cleanup w)) w);;
      maze_call (AddEvent obj_event new_tile);;
      maze_call (RemoveEvent (blank_of obj_event) new_tile)
  | _ :: _ => ret tt
  end.

Definition move_personas (frontend_data : gmap string Tile) : M unit :=
  ps ← gets personas;
  for_each (move_persona frontend_data) ps.

(** [new_day] as lines 305-310 compute it. *)
Definition new_day_flag (persona : Persona) (now : Z) : NewDay :=
  match scratch_curr_time (scratch persona) with
  | None => FirstDay
  | Some t =>
      if decide (strftime_a_b_d t = strftime_a_b_d now)
      then NotNewDay else NewDayStarted
  end.

(** The persona object at position [i] of [self.personas] is now [p]; its
    key stays. *)
Definition store_persona (i : nat) (p : Persona) : M unit :=
  modify (λ w, set_personas (alter (λ item, (item.1, p)) i (personas w)) w).

(** Lines 298-323, the body for the persona at position [i]. *)
Definition decide_persona (i : nat) (item : string * Persona) : M unit :=
  let '(persona_name, persona) := item in
  tiles ← gets personas_tile;
  tile ← subscript tiles persona_name;
  now ← gets curr_time;
  let new_day := new_day_flag persona now in
  let persona := with_scratch_tile_time tile now persona in
  store_persona i persona;;
  mz ← gets maze;
  '(persona, perceived) ← await (perceive persona mz);
  store_persona i persona;;
  ps ← gets personas;
  '(persona, d) ← await (move persona mz ps tile now perceived new_day);
  store_persona i persona;;
  modify (λ w, set_movements
                 (mkMovements
                    (<[persona_name :=
                         mkMovement (next_tile d) (pronunciatio d)
                           (description d) (chat (scratch persona))]>
                       (mv_persona (movements w)))
                    (mv_meta_curr_time (movements w))) w);;
  modify (λ w, set_backend_data
                 (mkBackendData (bd_time (backend_data w))
                    (<[persona_name := next_tile d]>
                       (bd_persona (backend_data w)))) w).

Definition decide_personas : M unit :=
  modify (set_movements (mkMovements ∅ None));;
  ps ← gets personas;
  for_each_from 0 decide_persona ps.

(** Writing [<sim_folder>/movement/<step>.json]; the folder is made when it
    is missing. *)
Definition write_movement (sim : string) (st : Z) (mv : Movements)
    (fs : gmap string Tree) : gmap string Tree :=
  let t := default empty_tree (fs !! sim) in
  <[sim := mkTree (t_meta t) (t_environment t)
             (<[st := mv]> (t_movement t)) (t_personas t)]> fs.

(** Lines 327-342. *)
Definition save_movements : M unit :=
  modify (λ w, set_movements
                 (mkMovements (mv_persona (movements w)) (Some (curr_time w))) w);;
  modify (λ w, set_backend_data
                 (mkBackendData (curr_time w) (bd_persona (backend_data w))) w);;
  modify (λ w, set_fs_storage
                 (write_movement (sim_code w) (step w) (movements w)
                    (fs_storage w)) w).

(** Lines 346-349. *)
Definition advance : M unit :=
  modify (λ w, set_step (step w + 1) w);;
  now ← gets curr_time;
  sps ← gets sec_per_step;
  match datetime_add now sps with
  | Some t => modify (set_curr_time t)
  | None => raise OverflowError
  end;;
  modify (λ w, set_int_counter (int_counter w - 1) w).

(** Lines 262-349: the tick after the cleanup of the ledger. *)
Definition tick_body (frontend_data : gmap string Tile) : M unit :=
  move_personas frontend_data;;
  decide_personas;;
  save_movements;;
  advance.

(** Lines 254-349: what the loop does once [frontend_data] is there. *)
Definition tick (frontend_data : gmap string Tile) : M unit :=
  cleanup_objects;;
  tick_body frontend_data.

(** Lines 248-352: one turn of the [while True] loop after its counter
    check. *)
Definition loop_body (br : Bridge) : M unit :=
  frontend_data ← poll br;
  match frontend_data with
  | Some frontend_data => tick frontend_data
  | None => ret tt
  end.

(** The [while True] loop, unrolled at most [fuel] times.  [true]: the loop
    reached its [break]; [false]: it is still running. *)
Fixpoint server_loop (br : Bridge) (fuel : nat) : M bool :=
  c ← gets int_counter;
  if decide (c = 0) then ret true
  else match fuel with
       | O => ret false
       | S fuel' => loop_body br;; server_loop br fuel'
       end.

(** Lines 235-238. *)
Definition start_server_enter (n : Z) : M unit :=
  modify (λ w, set_backend_data (mkBackendData (curr_time w) (frontend_pos w)) w);;
  modify (set_game_obj_cleanup []);;
  modify (set_int_counter n).

Definition start_server (br : Bridge) (fuel : nat) (n : Z) : M bool :=
  start_server_enter n;;
  server_loop br fuel.

(** [k] turns of the loop, without its counter check. *)
Fixpoint turns (br : Bridge) (k : nat) : M unit :=
  match k with
  | O => ret tt
  | S k' => loop_body br;; turns br k'
  end.

(** The world after [k] polls of the bridge and nothing else. *)
Fixpoint polled (br : Bridge) (k : nat) (w : World) : World :=
  match k with
  | O => w
  | S k' => polled br k' (poll br w).2
  end.

(** ** Observations of the world *)

(** The clock, the step counter and the loop counter. *)
Definition clock (w : World) : Z * Z * Z * Z * string :=
  (step w, curr_time w, sec_per_step w, int_counter w, sim_code w).

(** What belongs to the controller: everything but [frontend_pos] and the
    storage, which a bridge may write. *)
Definition controller (w : World) :=
  (clock w, maze w, personas w, personas_tile w, game_obj_cleanup w,
   backend_data w, movements w, maze_calls w).

(** The maze, the calls made on it, the cleanup ledger and the tiles of the
    personas: what the move loop of a tick writes. *)
Definition bookkeeping (w : World) :=
  (maze w, maze_calls w, game_obj_cleanup w, personas_tile w).

(** The names under which the personas are registered, in order. *)
Definition persona_names (w : World) : list string := (personas w).*1.

(** What is out of reach of the decide loop of a tick. *)
Definition outside_decide (w : World) :=
  (clock w, bookkeeping w, fs_storage w, frontend_pos w, persona_names w).

(** What is out of reach of the cleanup and of the move loop of a tick. *)
Definition outside_move (w : World) :=
  (clock w, fs_storage w, frontend_pos w, personas w, movements w,
   backend_data w).

(** [m] leaves the observation [f] of the world alone, whether it returns
    or raises. *)
Definition preserves {A X} (f : World → X) (m : M A) : Prop :=
  ∀ w, f (m w).2 = f w.

(** The calls [cs] made on the maze of [w], one after the other. *)
Definition do_calls (cs : list MazeCall) (w : World) : World :=
  set_maze_calls (maze_calls w ++ cs)
    (set_maze (foldl (λ mz c, apply_call c mz) (maze w) cs) w).


(** The registered personas, their tiles and their reported positions. *)
Definition registry (w : World) :=
  (personas w, personas_tile w, bd_persona (backend_data w)).


(** The world without the folder of the simulation [gone]. *)
Definition forget (gone : string) (w : World) : World :=
  set_fs_storage (delete gone (fs_storage w)) w.


(** ** The tile-event bookkeeping of one persona, as the specification words it

    A persona that has arrived (its queued path is empty) has its object
    event spawned at the new tile and the blank record of that object
    removed there, and the event is entered in the cleanup ledger under the
    new tile; for a persona still on its way none of this happens. *)
Definition object_calls (persona : Persona) (new_tile : Tile) : list MazeCall :=
  let obj_event := get_curr_obj_event_and_desc (scratch persona) in
  [AddEvent obj_event new_tile; RemoveEvent (blank_of obj_event) new_tile].

Definition subject_calls (persona : Persona) (curr_tile new_tile : Tile)
  : list MazeCall :=
  [RemoveSubject (name persona) curr_tile;
   AddEvent (get_curr_event_and_desc (scratch persona)) new_tile].

Definition moved (persona_name : string) (persona : Persona)
    (curr_tile new_tile : Tile) (w : World) : World :=
  let w := set_personas_tile (<[persona_name := new_tile]> (personas_tile w)) w in
  match planned_path (scratch persona) with
  | [] =>
      do_calls (subject_calls persona curr_tile new_tile ++
                object_calls persona new_tile)
        (set_game_obj_cleanup
           (oset (get_curr_obj_event_and_desc (scratch persona)) new_tile
              (game_obj_cleanup w)) w)
  | _ :: _ => do_calls (subject_calls persona curr_tile new_tile) w
  end.

(** ** Conditions under which a tick runs to its end *)






(** ** [ReverieServer.save] *)
Definition save : M unit :=
  w ← gets id;
  match fs_storage w !! sim_code w with
  | None => raise (FileNotFoundError (sim_code w))
  | Some t =>
      let reverie_meta :=
        mkMeta (fork_sim_code w) (start_time w) (curr_time w) (sec_per_step w)
          (maze_name (maze w)) (personas w).*1 (step w) in
      let saved :=
        foldl (λ d '(persona_name, persona), <[persona_name := persona]> d)
          (t_personas t) (personas w) in
      modify (set_fs_storage
                (<[sim_code w := mkTree (Some reverie_meta) (t_environment t)
                                   (t_movement t) saved]> (fs_storage w)))
  end.

(** ** [ReverieServer.__init__] *)

(** Modelled from the spec: [copyanything] of module [global_methods], which
    "duplicates the entire source snapshot's persisted tree under the target
    identifier". *)
Definition copyanything (src dst : string) (fs : gmap string Tree)
  : Exn + gmap string Tree :=
  match fs !! src, fs !! dst with
  | None, _ => inl (FileNotFoundError src)
  | Some _, Some _ => inl (FileExistsError dst)
  | Some t, None => inr (<[dst := t]> fs)
  end.

(** Modelled from the spec: the constructor [Persona(name, folder)] of module
    [persona.persona], which "loads that agent's persisted sub-state". *)
Definition Persona_load (persona_name : string) (t : Tree) : option Persona :=
  match t_personas t !! persona_name with
  | Some p => Some (mkPersona persona_name (scratch p) (a_mem p))
  | None => None
  end.

(** Lines 55-79: the target folder is removed when it exists, the source
    folder is copied under the target name, and [fork_sim_code] is written
    into the copy of [reverie/meta.json].  Returns [reverie_meta]. *)
Definition fork_folder (fork_sim sim : string) (fs : gmap string Tree)
  : Res Meta * gmap string Tree :=
  let fs := if decide (is_Some (fs !! sim)) then delete sim fs else fs in
  match copyanything fork_sim sim fs with
  | inl e => (Raise e, fs)
  | inr fs =>
      match fs !! sim with
      | None => (Raise (FileNotFoundError sim), fs)
      | Some t =>
          match t_meta t with
          | None => (Raise (FileNotFoundError sim), fs)
          | Some m =>
              let reverie_meta :=
                mkMeta fork_sim (meta_start_date m) (meta_curr_time m)
                  (meta_sec_per_step m) (meta_maze_name m)
                  (meta_persona_names m) (meta_step m) in
              (Ok reverie_meta,
               <[sim := mkTree (Some reverie_meta) (t_environment t)
                          (t_movement t) (t_personas t)]> fs)
          end
      end
  end.

(** Lines 138-150, the body for one persona name. *)
Definition load_persona (init_env : gmap string EnvEntry) (t : Tree)
    (persona_name : string) : M unit :=
  entry ← subscript init_env persona_name;
  match entry with
  | EnvTile _ => raise TypeError
  | EnvNode p_x p_y start_node =>
      match Persona_load persona_name t with
      | None => raise (FileNotFoundError persona_name)
      | Some curr_persona =>
          modify (λ w, set_personas (oset persona_name curr_persona (personas w)) w);;
          modify (λ w, set_personas_tile
                         (<[persona_name := start_node]> (personas_tile w)) w);;
          modify (λ w, set_frontend_pos
                         (<[persona_name := start_node]> (frontend_pos w)) w);;
          maze_call (AddEvent (get_curr_event_and_desc (scratch curr_persona))
                       start_node)
      end
  end.

(** Lines 81-173.  The object under construction starts with the attributes
    read from [reverie_meta] and empty dictionaries. *)
Definition load_server (fork_sim sim : string) (reverie_meta : Meta)
    (fp : gmap string Tile) (fs : gmap string Tree) : Res unit * World :=
  let w :=
    mkWorld fork_sim sim (meta_start_date reverie_meta)
      (meta_curr_time reverie_meta) (meta_sec_per_step reverie_meta)
      (Maze_new (meta_maze_name reverie_meta)) (meta_step reverie_meta)
      [] ∅ 0 [] (mkBackendData 0 ∅) (mkMovements ∅ None) fp fs [] in
  let t := default empty_tree (fs !! sim) in
  match t_environment t !! meta_step reverie_meta with
  | None => (Raise (FileNotFoundError sim), w)
  | Some init_env =>
      for_each (load_persona init_env t) (meta_persona_names reverie_meta) w
  end.

(** [ReverieServer(fork_sim_code, sim_code)]: the result, and on every path
    the contents of [frontend_pos] and of the storage it leaves. *)
Definition ReverieServer_init (fork_sim sim : string)
    (fp : gmap string Tile) (fs : gmap string Tree)
  : Res World * gmap string Tile * gmap string Tree :=
  match fork_folder fork_sim sim fs with
  | (Raise e, fs) => (Raise e, fp, fs)
  | (Ok reverie_meta, fs) =>
      match load_server fork_sim sim reverie_meta fp fs with
      | (Ok _, w) => (Ok w, frontend_pos w, fs_storage w)
      | (Raise e, w) => (Raise e, frontend_pos w, fs_storage w)
      end
  end.

End Reverie.

Arguments Ok {A} a.
Arguments Raise {A} e.

(** ** A tile-event store *)

#[global] Instance Event_countable : Countable Event.
Proof.
  refine (inj_countable'
            (λ e, (ev_subject e, ev_predicate e, ev_object e, ev_description e))
            (λ '(s, p, o, d), mkEvent s p o d) _).
  by intros [].
Defined.

(** Modelled from the spec: the maze of module [maze_neo], as the
    TileEventStore contract describes it: a set of event records per tile,
    [addEvent] and [removeEvent] idempotent, [removeSubjectEvents] deleting
    every record of a subject, [idleEvent] rewriting the records that match
    the subject and object of the given one to the idle form, creating none. *)
Record TileStore := mkTileStore {
  ts_name : string;
  ts_tiles : gmap Tile (gset Event) }.

Definition events_at (tile : Tile) (s : TileStore) : gset Event :=
  default ∅ (ts_tiles s !! tile).

Definition with_events (tile : Tile) (evs : gset Event) (s : TileStore) : TileStore :=
  mkTileStore (ts_name s) (<[tile := evs]> (ts_tiles s)).

Definition matches_identity (e r : Event) : Prop :=
  ev_subject r = ev_subject e ∧ ev_object r = ev_object e.

#[global] Instance matches_identity_dec e r : Decision (matches_identity e r).
Proof. unfold matches_identity. apply _. Defined.

#[global] Instance TileStore_ops : MazeOps TileStore := {|
  Maze_new := λ nm, mkTileStore nm ∅;
  maze_name := ts_name;
  add_event_from_tile := λ e tile s,
    with_events tile ({[e]} ∪ events_at tile s) s;
  remove_event_from_tile := λ e tile s,
    with_events tile (events_at tile s ∖ {[e]}) s;
  turn_event_from_tile_idle := λ e tile s,
    with_events tile
      (set_map (λ r, if decide (matches_identity e r) then blank_of r else r)
         (events_at tile s)) s;
  remove_subject_events_from_tile := λ subject tile s,
    with_events tile
      (filter (λ r, ev_subject r ≠ subject) (events_at tile s)) s |}.

(** ** A headless example world *)

(** A persona that perceives nothing and decides to stay where it is. *)
Definition stay_put : PersonaOps TileStore := {|
  perceive := λ p _, inr (p, []);
  move := λ p _ _ tile _ _ _, inr (p, mkMoveResult tile "zz" "idle" "") |}.

(** As [stay_put], except that [move] raises for the persona called
    [culprit]. *)
Definition fails_for (culprit : string) : PersonaOps TileStore := {|
  perceive := λ p _, inr (p, []);
  move := λ p _ _ tile _ _ _,
    if decide (name p = culprit) then inl (PersonaError "move failed")
    else inr (p, mkMoveResult tile "zz" "idle" "") |}.

(** Day labels by day number. *)
Definition day_number : Calendar := {| strftime_a_b_d := λ t, pretty (t `div` 86400) |}.

(** February 13, 2023, 00:00:00. *)
Definition feb_13_2023 : Z := 63811843200.

Definition bed_in_use : Event :=
  mkEvent "the ville:isabella's apartment:bedroom:bed"
    (Some "is") (Some "occupied") (Some "being slept in").

Definition isabella : Persona :=
  mkPersona "Isabella Rodriguez"
    (mkScratch [] None None None
       (mkEvent "Isabella Rodriguez" (Some "is") (Some "sleeping") (Some "sleeping"))
       bed_in_use)
    [].

Definition klaus : Persona :=
  mkPersona "Klaus Mueller"
    (mkScratch [(21, 20)] None None None
       (mkEvent "Klaus Mueller" (Some "is") (Some "walking") (Some "walking"))
       (mkEvent "the ville:library:desk" (Some "is") (Some "idle") (Some "idle")))
    [].

Definition base_meta : Meta :=
  mkMeta "base" feb_13_2023 feb_13_2023 600 "the_ville"
    ["Isabella Rodriguez"; "Klaus Mueller"] 0.

Definition base_tree : Tree :=
  mkTree (Some base_meta)
    {[ 0 := {[ "Isabella Rodriguez" := EnvNode 10 10 (10, 10);
               "Klaus Mueller" := EnvNode 20 20 (20, 20) ]} ]}
    ∅
    {[ "Isabella Rodriguez" := isabella; "Klaus Mueller" := klaus ]}.

(** A storage with the hand-made snapshot ["base"] only. *)
Definition storage0 : gmap string Tree := {[ "base" := base_tree ]}.

(** A storage in which the target ["trial1"] exists before the fork. *)
Definition stale_tree : Tree := mkTree None ∅ {[ 7 := mkMovements ∅ (Some 0) ]} ∅.

Definition storage1 : gmap string Tree :=
  {[ "base" := base_tree; "trial1" := stale_tree ]}.

(** The positions that [sim_frontend] echoes in the first tick. *)
Definition start_positions : gmap string Tile :=
  {[ "Isabella Rodriguez" := (10, 10); "Klaus Mueller" := (20, 20) ]}.

(** The server [ReverieServer("base", "trial1")] over [storage0]. *)
Definition trial1 : World (Maze := TileStore) :=
  match ReverieServer_init "base" "trial1" ∅ storage0 with
  | (Ok w, _, _) => w
  | (Raise _, _, _) =>
      mkWorld "" "" 0 0 0 (Maze_new "") 0 [] ∅ 0 [] (mkBackendData 0 ∅)
        (mkMovements ∅ None) ∅ ∅ []
  end.

(** A bridge that makes the loop wait: it answers ["no update yet"] until two polls have
    been counted in [frontend_pos] under the key ["#polls"], and is
    [sim_frontend] from then on. *)
Definition slow_bridge : Bridge :=
  λ fp bd st sim fs,
    match fp !! "#polls" with
    | None => (Ok None, <["#polls" := (1, 0)]> fp, fs)
    | Some (1, _) => (Ok None, <["#polls" := (2, 0)]> fp, fs)
    | Some _ => sim_frontend fp bd st sim fs
    end.

(** [trial1] inside [start_server(1)], before the first turn of the loop. *)
Definition trial1_entered : World (Maze := TileStore) :=
  (start_server_enter 1 trial1).2.

(** [trial1] after the cleanup and the move loop of its first tick. *)
Definition trial1_moved : World (Maze := TileStore) :=
  (move_personas start_positions (cleanup_objects trial1).2).2.

(** [trial1_moved] after Isabella has decided, when Klaus is the persona
    whose [move] raises. *)
Definition trial1_decided : World (Maze := TileStore) :=
  (for_each_from 0
     (decide_persona (persona_ops := fails_for "Klaus Mueller")
        (calendar := day_number))
     [("Isabella Rodriguez", isabella)]
     (set_movements (mkMovements ∅ None) trial1_moved)).2.

(** ** Further observations *)
Section observations.
Context {Maze : Type} {maze_ops : MazeOps Maze}
  {persona_ops : PersonaOps Maze} {calendar : Calendar}.

(** What identifies a server and never changes while it runs: the names
    under which personas are registered, the two simulation codes, the
    start date and the length of a step. *)
Definition enrolment (w : World (Maze := Maze)) :=
  (persona_names w, sim_code w, fork_sim_code w, start_time w, sec_per_step w).

(** The folder of the simulation, and single files of it. *)
Definition sim_folder (w : World (Maze := Maze)) : option Tree := fs_storage w !! sim_code w.

Definition movement_file (k : Z) (w : World (Maze := Maze))
  : option Movements :=
  sim_folder w ≫= λ t, t_movement t !! k.

Definition environment_file (k : Z) (w : World (Maze := Maze))
  : option (gmap string EnvEntry) :=
  sim_folder w ≫= λ t, t_environment t !! k.

(** The files of the folder by kind; a folder that is not there has none.
    [meta.json] and the persona folders are what the constructor of a fork
    reads besides one environment file. *)
Definition snapshot_files (w : World (Maze := Maze)) :=
  let t := default empty_tree (sim_folder w) in
  (sim_code w, t_meta t, t_personas t).

Definition environment_files (w : World (Maze := Maze)) :=
  (sim_code w, t_environment (default empty_tree (sim_folder w))).

Definition movement_files (w : World (Maze := Maze)) :=
  (sim_code w, t_movement (default empty_tree (sim_folder w))).

(** The environment file of the current step holds bare tiles, one at
    least for every registered persona: the state in which [sim_frontend]
    leaves the folder. *)
Definition bare_environment (w : World (Maze := Maze)) : Prop :=
  ∃ environment : gmap string Tile,
    environment_file (step w) w = Some (EnvTile <$> environment) ∧
    ∀ nm, nm ∈ persona_names w → is_Some (environment !! nm).

(** Lines 304-323: [mvt] is the record that the decide loop enters for a
    persona [p] standing on [tile], when the clock is [now] and the maze is
    [mz]: the persona has perceived, [move] has returned, and the record
    holds the tile, the glyph and the description that [move] returned and
    the chat of the persona as [move] left it. *)
Definition decided_by (p : Persona) (tile : Tile) (now : Z) (mz : Maze)
    (mvt : Movement) : Prop :=
  ∃ p1 perceived ps p2 d,
    perceive (with_scratch_tile_time tile now p) mz = inr (p1, perceived) ∧
    move p1 mz ps tile now perceived (new_day_flag p now) = inr (p2, d) ∧
    mvt = mkMovement (next_tile d) (pronunciatio d) (description d)
            (chat (scratch p2)).

(** Lines 254-342: a tick up to and including the writing of the movement
    batch, before the step and the clock advance. *)
Definition tick_to_batch (frontend_data : gmap string Tile) : M unit :=
  bind cleanup_objects (λ _,
  bind (move_personas frontend_data) (λ _,
  bind decide_personas (λ _, save_movements))).

End observations.

(** ** Further example worlds *)

(** [trial1] after its folder has been removed from the storage. *)
Definition trial1_without_folder : World (Maze := TileStore) :=
  forget "trial1" trial1.

(** [trial1] with its clock at [datetime.max]. *)
Definition trial1_at_the_end : World (Maze := TileStore) :=
  set_curr_time datetime_max trial1.

(** [trial1] after [start_server(n)] over the headless bridge, with
    personas that stay where they are. *)
Definition trial1_after (n : nat) : World (Maze := TileStore) :=
  (start_server (persona_ops := stay_put) (calendar := day_number)
     sim_frontend n (Z.of_nat n) trial1).2.

(** The same, saved. *)
Definition trial1_saved_after (n : nat) : World (Maze := TileStore) :=
  (save (trial1_after n)).2.

(** A hand-made snapshot whose environment file has no entry for Klaus. *)
Definition lonely_tree : Tree :=
  mkTree (Some base_meta)
    {[ 0 := {[ "Isabella Rodriguez" := EnvNode 10 10 (10, 10) ]} ]}
    ∅
    {[ "Isabella Rodriguez" := isabella; "Klaus Mueller" := klaus ]}.

Definition storage2 : gmap string Tree := {[ "base" := lonely_tree ]}.

(** An update that reports Isabella only. *)
Definition isabella_only : gmap string Tile :=
  {[ "Isabella Rodriguez" := (10, 10) ]}.

(** Personas that perceive nothing and decide to step one tile to the
    right. *)
Definition go_right : PersonaOps TileStore := {|
  perceive := λ p _, inr (p, []);
  move := λ p _ _ tile _ _ _,
    inr (p, mkMoveResult (tile.1 + 1, tile.2) "->" "walking" "") |}.

(** * Properties *)

Section monad_facts.
Context {Maze : Type} {maze_ops : MazeOps Maze}
  {persona_ops : PersonaOps Maze} {calendar : Calendar}.
Implicit Types w : World (Maze := Maze).

Lemma bind_Ok {A B} (m : M A) (k : A → M B) w a w1 :
  m w = (Ok a, w1) → bind m k w = k a w1.
Proof. intros Hm. unfold bind. by rewrite Hm. Qed.

Lemma bind_Raise {A B} (m : M A) (k : A → M B) w e w1 :
  m w = (Raise e, w1) → bind m k w = (Raise e, w1).
Proof. intros Hm. unfold bind. by rewrite Hm. Qed.

Lemma bind_Ok_inv {A B} (m : M A) (k : A → M B) w b w' :
  bind m k w = (Ok b, w') → ∃ a w1, m w = (Ok a, w1) ∧ k a w1 = (Ok b, w').
Proof.
  unfold bind. destruct (m w) as [[a|e] w1]; [eauto | discriminate].
Qed.

Lemma bind_assoc {A B C} (m : M A) (k1 : A → M B) (k2 : B → M C) w :
  bind (bind m k1) k2 w = bind m (λ a, bind (k1 a) k2) w.
Proof. unfold bind. by destruct (m w) as [[a|e] w1]. Qed.

Lemma bind_ext {A B} (m : M A) (k k' : A → M B) w :
  (∀ a w1, k a w1 = k' a w1) → bind m k w = bind m k' w.
Proof. intros Hk. unfold bind. by destruct (m w) as [[a|e] w1]. Qed.

Lemma preserves_ret {A X} (f : World (Maze := Maze) → X) (a : A) : preserves f (ret a).
Proof. by intros w. Qed.

Lemma preserves_raise {A X} (f : World (Maze := Maze) → X) e : preserves f (raise (A := A) e).
Proof. by intros w. Qed.

Lemma preserves_gets {A X} (f : World (Maze := Maze) → X) (g : World → A) : preserves f (gets g).
Proof. by intros w. Qed.

Lemma preserves_modify {X} (f : World (Maze := Maze) → X) (g : World (Maze := Maze) → World (Maze := Maze)) :
  (∀ w, f (g w) = f w) → preserves f (modify g).
Proof. intros Hg w. apply Hg. Qed.

Lemma preserves_bind {A B X} (f : World (Maze := Maze) → X) (m : M A) (k : A → M B) :
  preserves f m → (∀ a, preserves f (k a)) → preserves f (bind m k).
Proof.
  intros Hm Hk w. unfold bind. specialize (Hm w).
  destruct (m w) as [[a|e] w1]; simpl in *; [| done].
  by rewrite Hk.
Qed.

Lemma preserves_subscript {V X} (f : World (Maze := Maze) → X) (d : gmap string V) k :
  preserves f (subscript d k).
Proof. intros w. unfold subscript. by destruct (d !! k). Qed.

Lemma preserves_await {A X} (f : World (Maze := Maze) → X) (r : Exn + A) : preserves f (await r).
Proof. intros w. by destruct r. Qed.

Lemma preserves_for_each {A X} (f : World (Maze := Maze) → X) (g : A → M unit) l :
  (∀ x, preserves f (g x)) → preserves f (for_each g l).
Proof.
  intros Hg. induction l as [|x l IH]; simpl.
  - apply preserves_ret.
  - apply preserves_bind; [apply Hg | intros _; apply IH].
Qed.

Lemma preserves_for_each_from {A X} (f : World (Maze := Maze) → X) (g : nat → A → M unit) l i :
  (∀ j x, preserves f (g j x)) → preserves f (for_each_from i g l).
Proof.
  intros Hg. revert i. induction l as [|x l IH]; intros i; simpl.
  - apply preserves_ret.
  - apply preserves_bind; [apply Hg | intros _; apply IH].
Qed.

End monad_facts.

Ltac frame_step :=
  match goal with
  | |- preserves _ (bind _ _) => apply preserves_bind; [| intros ?]
  | |- preserves _ (ret _) => apply preserves_ret
  | |- preserves _ (raise _) => apply preserves_raise
  | |- preserves _ (gets _) => apply preserves_gets
  | |- preserves _ (modify _) => apply preserves_modify; intros ?; reflexivity
  | |- preserves _ (subscript _ _) => apply preserves_subscript
  | |- preserves _ (await _) => apply preserves_await
  | |- preserves _ (for_each _ _) => apply preserves_for_each; intros ?
  | |- preserves _ (for_each_from _ _ _) => apply preserves_for_each_from; intros ? ?
  | |- preserves _ (match ?x with _ => _ end) => destruct x
  end.

Ltac frame :=
  unfold cleanup_objects, move_personas, move_persona, decide_personas,
    decide_persona, store_persona, save_movements, maze_call;
  repeat frame_step.

Section tick_frames.
Context {Maze : Type} {maze_ops : MazeOps Maze}
  {persona_ops : PersonaOps Maze} {calendar : Calendar}.
Implicit Types w : World (Maze := Maze).

(** The clock, the step counter and the loop counter are touched by
    [advance] only. *)
Lemma cleanup_objects_clock : preserves (Maze := Maze) clock cleanup_objects.
Proof. frame. Qed.

Lemma move_personas_clock env :
  preserves (Maze := Maze) clock (move_personas env).
Proof. frame. Qed.

Lemma decide_personas_clock : preserves (Maze := Maze) clock decide_personas.
Proof. frame. Qed.

Lemma save_movements_clock : preserves (Maze := Maze) clock save_movements.
Proof. frame. Qed.

End tick_frames.

Section clock_facts.
Context {Maze : Type} {maze_ops : MazeOps Maze}
  {persona_ops : PersonaOps Maze} {calendar : Calendar}.
Implicit Types w : World (Maze := Maze).

Lemma datetime_add_Some t s t' : datetime_add t s = Some t' → t' = t + s.
Proof. unfold datetime_add. case_decide; congruence. Qed.

Lemma advance_eq w :
  advance w =
  match datetime_add (curr_time w) (sec_per_step w) with
  | Some t =>
      (Ok tt, set_int_counter (int_counter w - 1)
                (set_curr_time t (set_step (step w + 1) w)))
  | None => (Raise OverflowError, set_step (step w + 1) w)
  end.
Proof.
  unfold advance, bind, modify, gets, raise. simpl.
  by destruct (datetime_add (curr_time w) (sec_per_step w)).
Qed.

Lemma advance_Ok w w' :
  advance w = (Ok tt, w') →
  clock w' = (step w + 1, curr_time w + sec_per_step w, sec_per_step w,
              int_counter w - 1, sim_code w).
Proof.
  rewrite advance_eq.
  destruct (datetime_add _ _) as [t|] eqn:Ht; [| discriminate].
  apply datetime_add_Some in Ht as ->. by intros [= <-].
Qed.

(** The phases of a tick, taken apart. *)
Lemma tick_Ok_inv env w w' :
  tick env w = (Ok tt, w') →
  ∃ w1 w2 w3 w4,
    cleanup_objects w = (Ok tt, w1) ∧ move_personas env w1 = (Ok tt, w2) ∧
    decide_personas w2 = (Ok tt, w3) ∧ save_movements w3 = (Ok tt, w4) ∧
    advance w4 = (Ok tt, w').
Proof.
  unfold tick, tick_body. intros H0.
  apply bind_Ok_inv in H0 as ([] & w1 & H1 & H0).
  apply bind_Ok_inv in H0 as ([] & w2 & H2 & H0).
  apply bind_Ok_inv in H0 as ([] & w3 & H3 & H0).
  apply bind_Ok_inv in H0 as ([] & w4 & H4 & H0).
  by exists w1, w2, w3, w4.
Qed.

Lemma tick_Ok_clock env w w' :
  tick env w = (Ok tt, w') →
  clock w' = (step w + 1, curr_time w + sec_per_step w, sec_per_step w,
              int_counter w - 1, sim_code w).
Proof.
  intros (w1 & w2 & w3 & w4 & H1 & H2 & H3 & H4 & H5)%tick_Ok_inv.
  apply advance_Ok in H5. rewrite H5.
  pose proof (cleanup_objects_clock w) as E1. rewrite H1 in E1.
  pose proof (move_personas_clock env w1) as E2. rewrite H2 in E2.
  pose proof (decide_personas_clock w2) as E3. rewrite H3 in E3.
  pose proof (save_movements_clock w3) as E4. rewrite H4 in E4.
  simpl in *. unfold clock in *. congruence.
Qed.

(** A poll changes [frontend_pos] and the storage at most. *)
Lemma poll_controller br : preserves (Maze := Maze) controller (poll br).
Proof.
  intros w. unfold poll.
  by destruct (br _ _ _ _ _) as [[r fp] fs].
Qed.

Lemma poll_clock br : preserves (Maze := Maze) clock (poll br).
Proof.
  intros w. pose proof (poll_controller br w) as E.
  unfold controller in E. congruence.
Qed.

(** One turn of the loop either completed a tick or left the clock alone. *)
Lemma loop_body_Ok_clock br w w' :
  loop_body br w = (Ok tt, w') →
  clock w' = clock w ∨
  clock w' = (step w + 1, curr_time w + sec_per_step w, sec_per_step w,
              int_counter w - 1, sim_code w).
Proof.
  unfold loop_body. intros (r & w1 & Hp & Hk)%bind_Ok_inv.
  pose proof (poll_clock br w) as E. rewrite Hp in E. simpl in E.
  destruct r as [env|].
  - right. apply tick_Ok_clock in Hk. unfold clock in *. congruence.
  - left. by injection Hk as <-.
Qed.

(** Whenever the loop has come to rest, it has completed some number [k] of
    ticks within its [fuel] turns; when it has returned, [k] is the count
    it was started with. *)
Lemma server_loop_Ok br fuel w w' b :
  server_loop br fuel w = (Ok b, w') →
  ∃ k : Z, 0 ≤ k ≤ Z.of_nat fuel ∧
    step w' = step w + k ∧
    curr_time w' = curr_time w + k * sec_per_step w ∧
    sec_per_step w' = sec_per_step w ∧
    int_counter w' = int_counter w - k ∧
    (b = true → int_counter w' = 0).
Proof.
  revert w. induction fuel as [|fuel IH]; intros w; simpl.
  - unfold bind, gets, ret. case_decide as Hc; intros [= <- <-];
      exists 0; repeat split; try lia; try done.
  - unfold bind at 1. unfold gets at 1. case_decide as Hc.
    + intros [= <- <-]. exists 0. repeat split; try lia; done.
    + intros ([] & w1 & Hb & Hl)%bind_Ok_inv.
      apply IH in Hl as (k & Hk & Hs & Ht & Hsps & Hc' & Hret).
      apply loop_body_Ok_clock in Hb as [Hb|Hb]; unfold clock in Hb;
        injection Hb as E1 E2 E3 E4 E5.
      * exists k. rewrite E1, E2, E3, E4 in *.
        repeat split; try lia; done.
      * exists (k + 1). rewrite E1, E2, E3, E4 in *.
        repeat split; try lia; done.
Qed.

Lemma start_server_enter_clock n w :
  (start_server_enter n w).1 = Ok tt ∧
  (step (start_server_enter n w).2, curr_time (start_server_enter n w).2,
   sec_per_step (start_server_enter n w).2,
   int_counter (start_server_enter n w).2) =
  (step w, curr_time w, sec_per_step w, n).
Proof. done. Qed.

Lemma start_server_Ok br fuel n w w' b :
  start_server br fuel n w = (Ok b, w') →
  ∃ k : Z, 0 ≤ k ≤ Z.of_nat fuel ∧
    step w' = step w + k ∧ curr_time w' = curr_time w + k * sec_per_step w ∧
    int_counter w' = n - k ∧ (b = true → k = n).
Proof.
  unfold start_server. intros ([] & w0 & He & Hl)%bind_Ok_inv.
  pose proof (start_server_enter_clock n w) as [_ E]. rewrite He in E. simpl in E.
  injection E as E1 E2 E3 E4.
  apply server_loop_Ok in Hl as (k & Hk & Hs & Ht & Hsps & Hc & Hret).
  exists k. rewrite Hs, Ht, Hc, E1, E2, E3, E4.
  repeat split; try lia; try done.
  intros Hb. specialize (Hret Hb). lia.
Qed.

(** ** C1 *)

(** C1. Every completed tick increases [step] by exactly 1 and [curr_time]
    by exactly [sec_per_step]; a call of [start_server] that returns after
    being asked for [n] ticks has increased them by [n] and by
    [n * sec_per_step]; with [sec_per_step = 600] and three ticks this is
    [step + 3] and [curr_time + 1800] seconds. *)
Theorem tick_advances_step_and_clock :
  (∀ env w w',
     tick env w = (Ok tt, w') →
     step w' = step w + 1 ∧ curr_time w' = curr_time w + sec_per_step w) ∧
  (∀ br fuel n w w',
     start_server br fuel n w = (Ok true, w') →
     step w' = step w + n ∧ curr_time w' = curr_time w + n * sec_per_step w) ∧
  (∀ br fuel w w',
     sec_per_step w = 600 →
     start_server br fuel 3 w = (Ok true, w') →
     step w' = step w + 3 ∧ curr_time w' = curr_time w + 1800).
Proof.
  split; [| split].
  - intros env w w' Hc%tick_Ok_clock. unfold clock in Hc. by simplify_eq.
  - intros br fuel n w w' (k & _ & Hs & Ht & _ & Hk)%start_server_Ok.
    rewrite (Hk eq_refl) in *. done.
  - intros br fuel w w' Hsps (k & _ & Hs & Ht & _ & Hk)%start_server_Ok.
    rewrite (Hk eq_refl) in *. split; [done | lia].
Qed.

End clock_facts.

Section waiting.
Context {Maze : Type} {maze_ops : MazeOps Maze}
  {persona_ops : PersonaOps Maze} {calendar : Calendar}.
Implicit Types w : World (Maze := Maze).

Lemma poll_split br w : poll br w = ((poll br w).1, polled br 1 w).
Proof. simpl. by destruct (poll br w). Qed.

Lemma polled_S br k w : polled br (S k) w = (poll br (polled br k w)).2.
Proof.
  revert w. induction k as [|k IH]; intros w; [done |].
  change (polled br (S (S k)) w) with (polled br (S k) (poll br w).2).
  by rewrite IH.
Qed.

Lemma polled_controller br k w : controller (polled br k w) = controller w.
Proof.
  revert w. induction k as [|k IH]; intros w; simpl; [done |].
  rewrite IH. apply poll_controller.
Qed.

(** A turn whose poll is answered by [None] is the poll and nothing else. *)
Lemma loop_body_no_update br w :
  (poll br w).1 = Ok None → loop_body br w = (Ok tt, (poll br w).2).
Proof.
  intros Hp. unfold loop_body, bind.
  destruct (poll br w) as [r w1]. simpl in Hp. by subst r.
Qed.

Lemma loop_body_update br w env :
  (poll br w).1 = Ok (Some env) → loop_body br w = tick env (poll br w).2.
Proof.
  intros Hp. unfold loop_body, bind.
  destruct (poll br w) as [r w1]. simpl in Hp. by subst r.
Qed.

Lemma turns_S_r br k w :
  turns br (S k) w = bind (turns br k) (λ _, loop_body br) w.
Proof.
  revert w. induction k as [|k IH]; intros w.
  - cbn [turns]. unfold bind, ret. by destruct (loop_body br w) as [[[]|e] w1].
  - change (turns br (S (S k)) w)
      with (bind (loop_body br) (λ _, turns br (S k)) w).
    rewrite (bind_ext _ _ (λ _, bind (turns br k) (λ _, loop_body br)))
      by (intros _ w1; apply IH).
    by rewrite <- bind_assoc.
Qed.

Lemma turns_no_update br k w :
  (∀ j, (j < k)%nat → (poll br (polled br j w)).1 = Ok None) →
  turns br k w = (Ok tt, polled br k w).
Proof.
  induction k as [|k IH]; intros Hnone; [done |].
  rewrite turns_S_r. unfold bind. rewrite IH by (intros j Hj; apply Hnone; lia).
  rewrite loop_body_no_update by (apply Hnone; lia).
  by rewrite polled_S.
Qed.

Lemma server_loop_no_update br k fuel w :
  int_counter w ≠ 0 →
  (∀ j, (j < k)%nat → (poll br (polled br j w)).1 = Ok None) →
  server_loop br (k + fuel) w = server_loop br fuel (polled br k w).
Proof.
  revert w. induction k as [|k IH]; intros w Hc Hnone; [done |].
  change (server_loop br (S k + fuel) w)
    with (bind (gets int_counter)
            (λ c, if decide (c = 0) then ret true
                  else bind (loop_body br) (λ _, server_loop br (k + fuel))) w).
  unfold bind at 1, gets at 1. rewrite decide_False by done.
  unfold bind. rewrite loop_body_no_update by (apply (Hnone 0%nat); lia).
  rewrite IH.
  - done.
  - pose proof (poll_clock br w) as E. unfold clock in E. congruence.
  - intros j Hj. apply (Hnone (S j)). lia.
Qed.

(** ** C8 *)

(** C8. While the bridge answers [None], a turn of the loop changes nothing
    of the controller (clock, step, tiles of the agents, maze, cleanup
    ledger, remaining-tick counter): after [k] such polls the controller is
    as it was and the loop keeps waiting; when the next poll brings an
    update, the [k + 1] turns together are one tick, applied once to that
    controller state. *)
Theorem no_update_no_change br k w :
  (∀ j, (j < k)%nat → (poll br (polled br j w)).1 = Ok None) →
  turns br k w = (Ok tt, polled br k w) ∧
  controller (polled br k w) = controller w ∧
  (int_counter w ≠ 0 →
   ∀ fuel, server_loop br (k + fuel) w = server_loop br fuel (polled br k w)) ∧
  (∀ env, (poll br (polled br k w)).1 = Ok (Some env) →
     turns br (S k) w = tick env (polled br (S k) w) ∧
     controller (polled br (S k) w) = controller w ∧
     ∀ w', turns br (S k) w = (Ok tt, w') →
       step w' = step w + 1 ∧ curr_time w' = curr_time w + sec_per_step w ∧
       int_counter w' = int_counter w - 1).
Proof.
  intros Hnone. split; [by apply turns_no_update |].
  split; [apply polled_controller |].
  split; [intros Hc fuel; by apply server_loop_no_update |].
  intros env Henv.
  assert (turns br (S k) w = tick env (polled br (S k) w)) as Hturns.
  { rewrite turns_S_r. unfold bind. rewrite turns_no_update by done.
    rewrite (loop_body_update _ _ env) by done. by rewrite polled_S. }
  split; [done |]. split; [apply polled_controller |].
  intros w' Hw'. rewrite Hturns in Hw'. apply tick_Ok_clock in Hw'.
  pose proof (polled_controller br (S k) w) as E.
  unfold controller, clock in E. unfold clock in Hw'.
  injection E as E1 E2 E3 E4 _. injection Hw' as -> -> _ -> _.
  by rewrite E1, E2, E3, E4.
Qed.

(** The loop returns only from a count that was not negative. *)
Lemma server_loop_returns_nonneg br fuel w w' :
  server_loop br fuel w = (Ok true, w') → 0 ≤ int_counter w ≤ Z.of_nat fuel.
Proof.
  intros (k & Hk & _ & _ & _ & Hc & Hret)%server_loop_Ok.
  specialize (Hret eq_refl). lia.
Qed.

End waiting.

Section odict_facts.
Context {K V : Type} `{EqDecision K}.
Implicit Types d : list (K * V).






(** The keys after an assignment are the assigned one and the old ones. *)
Lemma oset_keys k k' v d : k' ∈ (oset k v d).*1 → k' = k ∨ k' ∈ d.*1.
Proof.
  induction d as [|[k0 v0] d IH]; simpl.
  - rewrite list_elem_of_singleton. by left.
  - destruct (decide (k = k0)) as [->|Hne]; simpl.
    + rewrite !elem_of_cons. tauto.
    + rewrite !elem_of_cons. intros [?|Hin]; [by right; left |].
      destruct (IH Hin); [by left | by right; right].
Qed.

End odict_facts.

Section calls.
Context {Maze : Type} {maze_ops : MazeOps Maze}
  {persona_ops : PersonaOps Maze} {calendar : Calendar}.
Implicit Types w : World (Maze := Maze).

Lemma do_calls_nil w : do_calls [] w = w.
Proof. destruct w. unfold do_calls. simpl. by rewrite app_nil_r. Qed.

Lemma do_calls_app cs1 cs2 w :
  do_calls (cs1 ++ cs2) w = do_calls cs2 (do_calls cs1 w).
Proof. unfold do_calls. simpl. by rewrite foldl_app, app_assoc. Qed.

Lemma maze_call_eq c w : maze_call c w = (Ok tt, do_calls [c] w).
Proof. done. Qed.











End calls.



Section bookkeeping.
Context {Maze : Type} {maze_ops : MazeOps Maze}
  {persona_ops : PersonaOps Maze} {calendar : Calendar}.
Implicit Types w : World (Maze := Maze).

(** *** The cleanup at the head of a tick *)

Lemma for_each_idle (l : list (Event * Tile)) w :
  for_each (λ '(key, val), maze_call (TurnIdle key val)) l w =
  (Ok tt, do_calls (idle_call <$> l) w).
Proof.
  revert w. induction l as [|[key val] l IH]; intros w; simpl.
  - by rewrite do_calls_nil.
  - unfold bind. rewrite maze_call_eq, IH.
    by rewrite <- do_calls_app.
Qed.

Lemma cleanup_objects_eq w :
  cleanup_objects w =
  (Ok tt, set_game_obj_cleanup [] (do_calls (idle_call <$> game_obj_cleanup w) w)).
Proof.
  unfold cleanup_objects, bind, gets, modify. by rewrite for_each_idle.
Qed.

(** *** The move of one persona *)

Lemma move_persona_eq env nm p w :
  move_persona env (nm, p) w =
  match personas_tile w !! nm, env !! nm with
  | Some curr_tile, Some new_tile => (Ok tt, moved nm p curr_tile new_tile w)
  | _, _ => (Raise (KeyError nm), w)
  end.
Proof.
  unfold move_persona, bind, gets, subscript.
  destruct (personas_tile w !! nm) as [cur|]; [| done].
  destruct (env !! nm) as [new|]; [| done].
  unfold moved, ret, modify. rewrite !maze_call_eq.
  destruct (planned_path (scratch p)).
  - rewrite !maze_call_eq. unfold do_calls. simpl.
    by rewrite <- !app_assoc.
  - unfold ret, do_calls. simpl. by rewrite <- !app_assoc.
Qed.

End bookkeeping.

Section ledger.
Context {Maze : Type} {maze_ops : MazeOps Maze}
  {persona_ops : PersonaOps Maze} {calendar : Calendar}.
Implicit Types w : World (Maze := Maze).



Lemma moved_personas_tile nm p cur new w :
  personas_tile (moved nm p cur new w) = <[nm := new]> (personas_tile w).
Proof. unfold moved. by destruct (planned_path (scratch p)). Qed.

(** *** C3 *)


(** *** The ledger across the move loop *)



(** The phases after the move loop leave the maze and the ledger alone. *)
Lemma decide_personas_bookkeeping :
  preserves (Maze := Maze) bookkeeping decide_personas.
Proof. frame. Qed.

Lemma save_movements_bookkeeping :
  preserves (Maze := Maze) bookkeeping save_movements.
Proof. frame. Qed.

Lemma advance_bookkeeping : preserves (Maze := Maze) bookkeeping advance.
Proof. unfold advance. frame. Qed.

Lemma after_move_bookkeeping :
  preserves (Maze := Maze) bookkeeping
    (bind decide_personas (λ _, bind save_movements (λ _, advance))).
Proof.
  apply preserves_bind; [apply decide_personas_bookkeeping | intros _].
  apply preserves_bind; [apply save_movements_bookkeeping | intros _].
  apply advance_bookkeeping.
Qed.

(** When the tail of a sequence preserves an observation, the sequence
    leaves it as its head did. *)
Lemma preserves_tail {A B X} (f : World (Maze := Maze) → X)
    (m : M A) (k : A → M B) w :
  (∀ a, preserves f (k a)) → f (bind m k w).2 = f (m w).2.
Proof.
  intros Hk. unfold bind. destruct (m w) as [[a|e] w1]; simpl; [| done].
  apply Hk.
Qed.

Lemma tick_body_bookkeeping env w :
  bookkeeping (tick_body env w).2 = bookkeeping (move_personas env w).2.
Proof.
  unfold tick_body. apply preserves_tail. intros _.
  apply after_move_bookkeeping.
Qed.


Lemma tick_eq env w :
  tick env w =
  tick_body env
    (set_game_obj_cleanup [] (do_calls (idle_call <$> game_obj_cleanup w) w)).
Proof. unfold tick, bind. by rewrite cleanup_objects_eq. Qed.





(** *** C2 *)


End ledger.

Section deciding.
Context {Maze : Type} {maze_ops : MazeOps Maze}
  {persona_ops : PersonaOps Maze} {calendar : Calendar}.
Implicit Types w : World (Maze := Maze).

Lemma alter_keys (p : Persona) i (l : list (string * Persona)) :
  (alter (λ item, (item.1, p)) i l).*1 = l.*1.
Proof.
  revert i. induction l as [|[nm q] l IH]; intros [|i]; try done.
  cbn. f_equal. apply IH.
Qed.

Lemma store_persona_outside i p :
  preserves (Maze := Maze) outside_decide (store_persona i p).
Proof.
  intros w. unfold outside_decide, persona_names. simpl.
  by rewrite alter_keys.
Qed.

Lemma decide_persona_outside i item :
  preserves (Maze := Maze) outside_decide (decide_persona i item).
Proof.
  unfold decide_persona. destruct item as [nm p].
  repeat first
    [ apply store_persona_outside
    | frame_step ].
Qed.

Lemma decide_loop_outside i l :
  preserves (Maze := Maze) outside_decide (for_each_from i decide_persona l).
Proof. apply preserves_for_each_from. intros j x. apply decide_persona_outside. Qed.

Lemma decide_personas_outside :
  preserves (Maze := Maze) outside_decide decide_personas.
Proof.
  unfold decide_personas.
  apply preserves_bind; [frame_step | intros _].
  apply preserves_bind; [frame_step | intros ps]. apply decide_loop_outside.
Qed.

(** The batch and the positions reported back change by one entry per
    persona that has decided. *)
Lemma decide_persona_Ok i nm p w w' :
  decide_persona i (nm, p) w = (Ok tt, w') →
  ∃ mvt,
    movements w' =
      mkMovements (<[nm := mvt]> (mv_persona (movements w)))
        (mv_meta_curr_time (movements w)) ∧
    backend_data w' =
      mkBackendData (bd_time (backend_data w))
        (<[nm := mv_movement mvt]> (bd_persona (backend_data w))).
Proof.
  unfold decide_persona, bind, gets, subscript, await, store_persona, modify,
    ret, raise.
  destruct (personas_tile w !! nm) as [tile|]; [| done]. simpl.
  destruct (perceive _ _) as [e|[p2 perceived]]; [done |]. simpl.
  destruct (move _ _ _ _ _ _ _) as [e|[p3 d]]; [done |]. simpl.
  intros [= <-]. simpl. eauto.
Qed.

Lemma decide_persona_Raise i nm p w w' e :
  decide_persona i (nm, p) w = (Raise e, w') →
  movements w' = movements w ∧ backend_data w' = backend_data w.
Proof.
  unfold decide_persona, bind, gets, subscript, await, store_persona, modify,
    ret, raise.
  destruct (personas_tile w !! nm) as [tile|]; [| by intros [= _ <-]]. simpl.
  destruct (perceive _ _) as [e1|[p2 perceived]]; [by intros [= _ <-] |]. simpl.
  destruct (move _ _ _ _ _ _ _) as [e1|[p3 d]]; [by intros [= _ <-] |]. simpl.
  done.
Qed.

(** The persona raises when its tile is known and [perceive] or [move]
    raises; the loop stops there. *)
Lemma decide_persona_raises i nm p w tile e :
  personas_tile w !! nm = Some tile →
  let p1 := with_scratch_tile_time tile (curr_time w) p in
  (perceive p1 (maze w) = inl e ∨
   ∃ p2 perceived,
     perceive p1 (maze w) = inr (p2, perceived) ∧
     move p2 (maze w)
       (alter (λ item, (item.1, p2)) i
          (alter (λ item, (item.1, p1)) i (personas w)))
       tile (curr_time w) perceived (new_day_flag p (curr_time w)) = inl e) →
  (decide_persona i (nm, p) w).1 = Raise e.
Proof.
  intros Htile p1 Hraise.
  unfold decide_persona, bind, gets, subscript, await, store_persona, modify,
    ret, raise.
  rewrite Htile. simpl. fold p1.
  destruct Hraise as [->|(p2 & perceived & -> & Hmove)]; [done |]. simpl.
  by rewrite Hmove.
Qed.

Lemma for_each_from_app {A} (g : nat → A → M (Maze := Maze) unit) l1 l2 i w :
  for_each_from i g (l1 ++ l2) w =
  bind (for_each_from i g l1) (λ _, for_each_from (i + length l1) g l2) w.
Proof.
  revert i w. induction l1 as [|x l1 IH]; intros i w; simpl.
  - unfold bind, ret. by rewrite Nat.add_0_r.
  - rewrite bind_assoc. apply bind_ext. intros _ w1. rewrite IH.
    by replace (S i + length l1)%nat with (i + S (length l1))%nat by lia.
Qed.

(** After a loop that returned, the batch has a record for a name exactly
    when it had one before or the name was in the loop. *)
Lemma decide_loop_Ok_movements i l w w' :
  for_each_from i decide_persona l w = (Ok tt, w') →
  mv_meta_curr_time (movements w') = mv_meta_curr_time (movements w) ∧
  ∀ nm, is_Some (mv_persona (movements w') !! nm) ↔
        is_Some (mv_persona (movements w) !! nm) ∨ nm ∈ l.*1.
Proof.
  revert i w. induction l as [|[nm0 p] l IH]; intros i w; cbn [for_each_from].
  - intros [= <-]. split; [done |]. intros nm. rewrite elem_of_nil. tauto.
  - intros ([] & w1 & H1 & Hl)%bind_Ok_inv.
    apply decide_persona_Ok in H1 as (mvt & Hmv & _).
    apply IH in Hl as [Hmeta Hkeys]. rewrite Hmv in Hmeta, Hkeys. simpl in *.
    split; [done |]. intros nm. rewrite Hkeys. simpl. rewrite elem_of_cons.
    destruct (decide (nm = nm0)) as [->|Hne].
    + rewrite lookup_insert_eq. split; [by right; left | eauto].
    + rewrite lookup_insert_ne by done. tauto.
Qed.

End deciding.

Section batch.
Context {Maze : Type} {maze_ops : MazeOps Maze}
  {persona_ops : PersonaOps Maze} {calendar : Calendar}.
Implicit Types w : World (Maze := Maze).

Lemma cleanup_objects_outside :
  preserves (Maze := Maze) outside_move cleanup_objects.
Proof. frame. Qed.

Lemma move_personas_outside env :
  preserves (Maze := Maze) outside_move (move_personas env).
Proof. frame. Qed.

Lemma save_movements_Ok w w' :
  save_movements w = (Ok tt, w') →
  movements w' = mkMovements (mv_persona (movements w)) (Some (curr_time w)) ∧
  bd_time (backend_data w') = curr_time w ∧
  clock w' = clock w ∧
  ∃ t, fs_storage w' !! sim_code w = Some t ∧
       t_movement t !! step w = Some (movements w').
Proof.
  unfold save_movements, bind, modify. intros [= <-]. simpl.
  repeat split; try done.
  unfold write_movement. rewrite lookup_insert_eq. eexists. split; [done |].
  simpl. by rewrite lookup_insert_eq.
Qed.

Lemma advance_keeps_batch :
  preserves (Maze := Maze) (λ w, (movements w, fs_storage w)) advance.
Proof. unfold advance. frame. Qed.

Lemma decide_personas_Ok w w' :
  decide_personas w = (Ok tt, w') →
  mv_meta_curr_time (movements w') = None ∧
  ∀ nm, is_Some (mv_persona (movements w') !! nm) ↔ nm ∈ persona_names w.
Proof.
  unfold decide_personas, bind, modify, gets.
  intros [Hmeta Hkeys]%decide_loop_Ok_movements. simpl in *.
  split; [done |]. intros nm. rewrite Hkeys, lookup_empty.
  unfold persona_names. split; [intros [[? ?]|?]; done | by right].
Qed.

(** *** C6 *)

(** C6, as the code has it. A completed tick leaves the movement batch in
    the simulation folder under the step index the tick started with (the
    value before the increment), with one record for each registered persona
    and no other, and its [meta.curr_time] is the clock the tick started
    with (the time before [sec_per_step] is added). *)
Theorem movement_batch_persisted env w w' :
  tick env w = (Ok tt, w') →
  step w' = step w + 1 ∧
  curr_time w' = curr_time w + sec_per_step w ∧
  ∃ t batch,
    fs_storage w' !! sim_code w = Some t ∧
    t_movement t !! step w = Some batch ∧
    mv_meta_curr_time batch = Some (curr_time w) ∧
    ∀ nm, is_Some (mv_persona batch !! nm) ↔ nm ∈ persona_names w.
Proof.
  intros Htick. pose proof (tick_Ok_clock _ _ _ Htick) as Hclk.
  unfold clock in Hclk. injection Hclk as Hs Ht _ _ _.
  split; [done |]. split; [done |].
  apply tick_Ok_inv in Htick as (w1 & w2 & w3 & w4 & H1 & H2 & H3 & H4 & H5).
  pose proof (cleanup_objects_outside w) as E1. rewrite H1 in E1.
  pose proof (move_personas_outside env w1) as E2. rewrite H2 in E2.
  pose proof (decide_personas_outside w2) as E3. rewrite H3 in E3.
  pose proof (advance_keeps_batch w4) as E5. rewrite H5 in E5.
  unfold outside_move, outside_decide, clock in *. simpl in *.
  injection E1 as E1s E1t _ _ E1c _ _ E1p _ _.
  injection E2 as E2s E2t _ _ E2c _ _ E2p _ _.
  injection E3 as E3s E3t _ _ E3c _ _ _ _.
  injection E5 as E5m E5f.
  apply decide_personas_Ok in H3 as [Hmeta Hkeys].
  apply save_movements_Ok in H4 as (Hmv & _ & _ & t & Hfs & Hfile).
  exists t, (movements w4). rewrite E5f.
  assert (sim_code w3 = sim_code w) as Esim by congruence.
  assert (step w3 = step w) as Estep by congruence.
  assert (curr_time w3 = curr_time w) as Etime by congruence.
  rewrite Esim in Hfs. rewrite Estep in Hfile.
  split; [done |]. split; [done |]. rewrite Hmv. simpl.
  split; [by rewrite Etime |].
  intros nm. rewrite Hkeys. unfold persona_names. by rewrite E2p, E1p.
Qed.

(** *** C7 *)

Lemma tick_raises_in_decide env w w2 e w3 :
  move_personas env (cleanup_objects w).2 = (Ok tt, w2) →
  decide_personas w2 = (Raise e, w3) →
  tick env w = (Raise e, w3).
Proof.
  intros Hmove Hdecide. unfold tick, tick_body, bind.
  rewrite cleanup_objects_eq in *. simpl in *. by rewrite Hmove, Hdecide.
Qed.

(** C7, as the code has it. When [perceive] or [move] of a persona raises
    during a tick, the exception leaves [tick] and the loop: the personas
    after it are not asked, the batch holds no record of this persona or of
    a later one and is not written, [step], the clock and the remaining-tick
    counter are as at the start of the tick; what the cleanup and the move
    loop of this tick did to the maze, the ledger and the tiles stays. *)
Theorem persona_exception_aborts_tick env w w2 pre nm p post wi tile e :
  move_personas env (cleanup_objects w).2 = (Ok tt, w2) →
  personas w2 = pre ++ (nm, p) :: post →
  for_each_from 0 decide_persona pre (set_movements (mkMovements ∅ None) w2)
    = (Ok tt, wi) →
  personas_tile wi !! nm = Some tile →
  (perceive (with_scratch_tile_time tile (curr_time wi) p) (maze wi) = inl e ∨
   ∃ p2 perceived,
     perceive (with_scratch_tile_time tile (curr_time wi) p) (maze wi)
       = inr (p2, perceived) ∧
     move p2 (maze wi)
       (alter (λ item, (item.1, p2)) (length pre)
          (alter (λ item,
                    (item.1, with_scratch_tile_time tile (curr_time wi) p))
             (length pre) (personas wi)))
       tile (curr_time wi) perceived (new_day_flag p (curr_time wi)) = inl e) →
  ∃ w',
    tick env w = (Raise e, w') ∧
    clock w' = clock w ∧
    fs_storage w' = fs_storage w ∧
    movements w' = movements wi ∧
    backend_data w' = backend_data wi ∧
    bookkeeping w' = bookkeeping w2 ∧
    ∀ br w0 fuel,
      poll br w0 = (Ok (Some env), w) → int_counter w0 ≠ 0 →
      server_loop br (S fuel) w0 = (Raise e, w').
Proof.
  intros Hmove Hps Hpre Htile Hraise.
  pose proof (decide_persona_raises (length pre) nm p wi tile e Htile Hraise)
    as Hfail.
  destruct (decide_persona (length pre) (nm, p) wi) as [r w'] eqn:Hd.
  simpl in Hfail. subst r.
  assert (decide_personas w2 = (Raise e, w')) as Hdecide.
  { unfold decide_personas, bind at 1, modify at 1, bind at 1, gets at 1.
    cbn [personas set_movements].
    rewrite Hps, for_each_from_app. unfold bind at 1. rewrite Hpre.
    change (0 + length pre)%nat with (length pre).
    cbn [for_each_from]. unfold bind at 1. by rewrite Hd. }
  pose proof (tick_raises_in_decide _ _ _ _ _ Hmove Hdecide) as Htick.
  exists w'. split; [done |].
  pose proof (cleanup_objects_outside w) as E1.
  pose proof (move_personas_outside env (cleanup_objects w).2) as E2.
  rewrite Hmove in E2.
  pose proof (decide_personas_outside w2) as E3. rewrite Hdecide in E3.
  apply decide_persona_Raise in Hd as [Hmv Hbd].
  unfold outside_move, outside_decide, bookkeeping, clock in *. simpl in *.
  split; [congruence |]. split; [congruence |]. split; [done |].
  split; [done |]. split; [congruence |].
  intros br w0 fuel Hpoll Hc.
  cbn [server_loop]. unfold bind at 1, gets at 1.
  rewrite decide_False by done.
  unfold bind at 1, loop_body, bind at 1. by rewrite Hpoll, Htick.
Qed.

End batch.

Section bridge_and_fork.
Context {Maze : Type} {maze_ops : MazeOps Maze}
  {persona_ops : PersonaOps Maze} {calendar : Calendar}.
Implicit Types w : World (Maze := Maze).
Implicit Types fs : gmap string Tree.
Implicit Types fp : gmap string Tile.

(** *** The headless bridge *)

Lemma echo_positions (persona_dict fp : gmap string Tile) :
  map_imap (λ k (_ : Tile), (persona_dict ∪ fp) !! k) persona_dict = persona_dict.
Proof.
  apply map_eq. intros k. rewrite map_lookup_imap.
  destruct (persona_dict !! k) as [tile|] eqn:Hk; simpl; [| done].
  by apply lookup_union_Some_l.
Qed.

Lemma sim_frontend_eq fp bd st sim fs :
  sim_frontend fp bd st sim fs =
  match write_environment sim (st + 1) (bd_persona bd) fs with
  | Some fs' => (Ok (Some (bd_persona bd)), bd_persona bd ∪ fp, fs')
  | None => (Raise (FileNotFoundError sim), bd_persona bd ∪ fp, fs)
  end.
Proof. unfold sim_frontend. by rewrite echo_positions. Qed.


(** *** Forking a folder *)

Lemma fork_folder_Ok fork_sim sim fs t m :
  fork_sim ≠ sim → fs !! fork_sim = Some t → t_meta t = Some m →
  let reverie_meta :=
    mkMeta fork_sim (meta_start_date m) (meta_curr_time m)
      (meta_sec_per_step m) (meta_maze_name m) (meta_persona_names m)
      (meta_step m) in
  fork_folder fork_sim sim fs =
  (Ok reverie_meta,
   <[sim := mkTree (Some reverie_meta) (t_environment t) (t_movement t)
              (t_personas t)]> fs).
Proof.
  intros Hne Ht Hm reverie_meta. unfold fork_folder, copyanything.
  set (fs1 := if decide (is_Some (fs !! sim)) then delete sim fs else fs).
  assert (fs1 !! fork_sim = Some t) as H1.
  { unfold fs1. case_decide; [by rewrite lookup_delete_ne | done]. }
  assert (fs1 !! sim = None) as H2.
  { unfold fs1. case_decide as Hs; [by rewrite lookup_delete_eq |].
    by apply eq_None_not_Some. }
  assert (∀ x, <[sim:=x]> fs1 = <[sim:=x]> fs) as H3.
  { intros x. unfold fs1. case_decide; [by rewrite insert_delete_eq | done]. }
  rewrite H1, H2, lookup_insert_eq, Hm, insert_insert_eq. fold reverie_meta.
  by rewrite H3.
Qed.

End bridge_and_fork.

Section independence.
Context {Maze : Type} {maze_ops : MazeOps Maze}
  {persona_ops : PersonaOps Maze} {calendar : Calendar}.
Implicit Types w : World (Maze := Maze).
Implicit Types fs : gmap string Tree.













End independence.



Section independence_of_the_server.
Context {Maze : Type} {maze_ops : MazeOps Maze}
  {persona_ops : PersonaOps Maze} {calendar : Calendar}.
Implicit Types w : World (Maze := Maze).
Implicit Types fs : gmap string Tree.












End independence_of_the_server.

Section constructor.
Context {Maze : Type} {maze_ops : MazeOps Maze}
  {persona_ops : PersonaOps Maze} {calendar : Calendar}.
Implicit Types w : World (Maze := Maze).
Implicit Types fs : gmap string Tree.
Implicit Types fp : gmap string Tile.

(** A target folder that exists is of no consequence to the fork. *)
Lemma fork_folder_delete_target fork_sim sim fs :
  fork_folder fork_sim sim fs = fork_folder fork_sim sim (delete sim fs).
Proof.
  unfold fork_folder.
  assert ((if decide (is_Some (fs !! sim)) then delete sim fs else fs)
          = delete sim fs) as ->.
  { case_decide as Hs; [done |]. symmetry. apply delete_id.
    by apply eq_None_not_Some. }
  rewrite lookup_delete_eq. case_decide as Hs; [by destruct Hs | done].
Qed.

Lemma ReverieServer_init_delete_target fork_sim sim fp fs :
  ReverieServer_init fork_sim sim fp fs =
  ReverieServer_init fork_sim sim fp (delete sim fs).
Proof. unfold ReverieServer_init. by rewrite fork_folder_delete_target. Qed.




Lemma load_persona_storage init_env t persona_name :
  preserves (Maze := Maze) fs_storage (load_persona init_env t persona_name).
Proof.
  unfold load_persona. apply preserves_bind; [frame_step | intros entry].
  destruct entry; [| frame_step].
  destruct (Persona_load _ _); [| frame_step]. frame.
Qed.


(** *** C4 *)

(** C4, as the code has it. The constructor does not fail because the target
    folder exists: it removes the target folder and proceeds exactly as if it
    had never been there, so that, the source folder being there with its
    [meta.json], the target folder ends up as the copy of the source folder
    with [fork_sim_code] set to the source, whatever it held before. *)
Theorem existing_target_is_replaced fork_sim sim fp fs t m old :
  fork_sim ≠ sim →
  fs !! fork_sim = Some t →
  t_meta t = Some m →
  fs !! sim = Some old →
  ReverieServer_init fork_sim sim fp fs =
    ReverieServer_init fork_sim sim fp (delete sim fs) ∧
  ∃ reverie_meta fs',
    fork_folder fork_sim sim fs = (Ok reverie_meta, fs') ∧
    meta_fork_sim_code reverie_meta = fork_sim ∧
    fs' !! sim =
      Some (mkTree (Some reverie_meta) (t_environment t) (t_movement t)
              (t_personas t)) ∧
    fs' !! fork_sim = Some t.
Proof.
  intros Hne Ht Hm Hold. split; [apply ReverieServer_init_delete_target |].
  eexists _, _. split; [by apply (fork_folder_Ok fork_sim sim fs t m) |].
  split; [done |]. rewrite lookup_insert_eq. split; [done |].
  by rewrite lookup_insert_ne.
Qed.

(** *** C5 *)


End constructor.

Section termination.
Context {Maze : Type} {maze_ops : MazeOps Maze}
  {persona_ops : PersonaOps Maze} {calendar : Calendar}.
Implicit Types w : World (Maze := Maze).

Lemma move_loop_returns env l w :
  (∀ nm p, (nm, p) ∈ l →
     is_Some (personas_tile w !! nm) ∧ is_Some (env !! nm)) →
  ∃ w', for_each (move_persona env) l w = (Ok tt, w') ∧
        ∀ nm, is_Some (personas_tile w !! nm) → is_Some (personas_tile w' !! nm).
Proof.
  revert w. induction l as [|[nm p] l IH]; intros w Hl; cbn [for_each].
  - by exists w.
  - destruct (Hl nm p) as [[cur Hcur] [new Hnew]]; [apply list_elem_of_here |].
    unfold bind. rewrite move_persona_eq, Hcur, Hnew.
    assert (∀ nm', is_Some (personas_tile w !! nm') →
                   is_Some (personas_tile (moved nm p cur new w) !! nm')) as Hmono.
    { intros nm' Hnm'. rewrite moved_personas_tile.
      destruct (decide (nm = nm')) as [->|Hne].
      - rewrite lookup_insert_eq. eauto.
      - by rewrite lookup_insert_ne. }
    destruct (IH (moved nm p cur new w)) as (w' & Hw' & Hkeep).
    { intros nm' p' Hin. destruct (Hl nm' p') as [Ht He];
        [by apply list_elem_of_further |]. split; [by apply Hmono | done]. }
    exists w'. split; [done |]. intros nm' Hnm'. by apply Hkeep, Hmono.
Qed.



Lemma save_movements_registry :
  preserves (Maze := Maze) registry save_movements.
Proof. frame. Qed.

Lemma advance_registry :
  preserves (Maze := Maze) (λ w, (registry w, fs_storage w)) advance.
Proof. unfold advance. frame. Qed.








(** *** C10 *)


(** *** What the constructor establishes *)





End termination.

(** * The theorems at the example world *)

Section runs.
Context {Maze : Type} {maze_ops : MazeOps Maze}.
Implicit Types w : World (Maze := Maze).

(** A run whose result is [Ok a] is that result and the world it left. *)
Lemma run_eq {A} (r : Res A * World (Maze := Maze)) a :
  r.1 = Ok a → r = (Ok a, r.2).
Proof. destruct r as [r w]. simpl. by intros ->. Qed.

Lemma ReverieServer_init_returned fork_sim sim fp fs :
  returned (ReverieServer_init fork_sim sim fp fs).1.1 = true →
  ∃ w, ReverieServer_init fork_sim sim fp fs
       = (Ok w, frontend_pos w, fs_storage w).
Proof.
  unfold ReverieServer_init.
  destruct (fork_folder fork_sim sim fs) as [[reverie_meta|e] fs1]; [| done].
  destruct (load_server _ _ _ _ _) as [[[]|e] w1]; [| done]. eauto.
Qed.

End runs.

Lemma trial1_built :
  ReverieServer_init "base" "trial1" ∅ storage0 =
  (Ok trial1, frontend_pos trial1, fs_storage trial1).
Proof.
  destruct (ReverieServer_init_returned "base" "trial1" ∅ storage0) as [w Hw];
    [vm_compute; reflexivity |].
  unfold trial1. by rewrite Hw.
Qed.

Lemma trial1_personas :
  personas trial1 = [("Isabella Rodriguez", isabella); ("Klaus Mueller", klaus)].
Proof. vm_compute. reflexivity. Qed.



Lemma tick_advances_step_and_clock_witness :
  let run1 :=
    tick (persona_ops := stay_put) (calendar := day_number)
      start_positions trial1 in
  let run3 :=
    start_server (persona_ops := stay_put) (calendar := day_number)
      sim_frontend 3 3 trial1 in
  (run1 = (Ok tt, run1.2) ∧
   step run1.2 = step trial1 + 1 ∧
   curr_time run1.2 = curr_time trial1 + sec_per_step trial1) ∧
  (sec_per_step trial1 = 600 ∧ run3 = (Ok true, run3.2) ∧
   step run3.2 = step trial1 + 3 ∧
   curr_time run3.2 = curr_time trial1 + 1800).
Proof.
  intros run1 run3.
  destruct (tick_advances_step_and_clock
              (persona_ops := stay_put) (calendar := day_number))
    as (H1 & _ & H3).
  assert (run1 = (Ok tt, run1.2)) as E1
    by (apply run_eq; vm_compute; reflexivity).
  assert (sec_per_step trial1 = 600) as E2 by (vm_compute; reflexivity).
  assert (run3 = (Ok true, run3.2)) as E3
    by (apply run_eq; vm_compute; reflexivity).
  split.
  - split; [exact E1 | exact (H1 _ _ _ E1)].
  - split; [exact E2 |]. split; [exact E3 | exact (H3 _ _ _ _ E2 E3)].
Defined.


(** C2 fails on the code across calls: after [start_server(1)] the ledger
    holds the bed event of Isabella, who has arrived; a second call of
    [start_server(1)] spawns the event again and makes no idling at all. *)
Lemma pending_events_counterexample :
  let run1 :=
    start_server (persona_ops := stay_put) (calendar := day_number)
      sim_frontend 1 1 trial1 in
  let run2 :=
    start_server (persona_ops := stay_put) (calendar := day_number)
      sim_frontend 1 1 run1.2 in
  run1.1 = Ok true ∧
  game_obj_cleanup run1.2 = [(bed_in_use, (10, 10))] ∧
  run2.1 = Ok true ∧
  drop (length (maze_calls run1.2)) (maze_calls run2.2) =
    [RemoveSubject "Isabella Rodriguez" (10, 10);
     AddEvent (get_curr_event_and_desc (scratch isabella)) (10, 10);
     AddEvent bed_in_use (10, 10);
     RemoveEvent (mkEvent (ev_subject bed_in_use) None None None) (10, 10);
     RemoveSubject "Klaus Mueller" (20, 20);
     AddEvent (get_curr_event_and_desc (scratch klaus)) (20, 20)].
Proof.
  intros run1 run2.
  split; [vm_compute; reflexivity |]. split; [vm_compute; reflexivity |].
  split; vm_compute; reflexivity.
Qed.


(** C4 fails on the code: with the target folder ["trial1"] already there,
    the constructor returns a server instead of raising, and the folder it
    leaves under ["trial1"] is not the one that was there. *)
Lemma existing_target_counterexample :
  let built := ReverieServer_init "base" "trial1" ∅ storage1 in
  is_Some (storage1 !! "trial1") ∧
  returned built.1.1 = true ∧
  built.2 !! "trial1" ≠ storage1 !! "trial1".
Proof.
  intros built. split; [by eexists |]. split; [vm_compute; reflexivity |].
  intros Heq. apply (f_equal (fmap t_meta)) in Heq.
  vm_compute in Heq. discriminate.
Qed.

Lemma existing_target_is_replaced_witness :
  "base" ≠ "trial1" ∧
  storage1 !! "base" = Some base_tree ∧
  t_meta base_tree = Some base_meta ∧
  storage1 !! "trial1" = Some stale_tree ∧
  ReverieServer_init "base" "trial1" ∅ storage1 =
    ReverieServer_init "base" "trial1" ∅ (delete "trial1" storage1).
Proof.
  assert ("base" ≠ "trial1") as E0 by discriminate.
  assert (storage1 !! "base" = Some base_tree) as E1 by reflexivity.
  assert (t_meta base_tree = Some base_meta) as E2 by reflexivity.
  assert (storage1 !! "trial1" = Some stale_tree) as E3 by reflexivity.
  split; [exact E0 |]. split; [exact E1 |]. split; [exact E2 |].
  split; [exact E3 |].
  exact (proj1 (existing_target_is_replaced (Maze := TileStore)
                  "base" "trial1" ∅ storage1
                  base_tree base_meta stale_tree E0 E1 E2 E3)).
Defined.


(** C6 fails on the code: after the first tick of ["trial1"] the folder has
    no movement record under the new step index 1; the batch is under the
    index 0, and its [meta.curr_time] is the clock before the tick, not the
    clock after it. *)
Lemma movement_batch_counterexample :
  let run1 :=
    tick (persona_ops := stay_put) (calendar := day_number)
      start_positions trial1 in
  let movement_file k :=
    fs_storage run1.2 !! sim_code run1.2 ≫= λ t, t_movement t !! k in
  run1.1 = Ok tt ∧
  step run1.2 = 1 ∧
  movement_file (step run1.2) = None ∧
  (movement_file 0 ≫= mv_meta_curr_time) = Some (curr_time trial1) ∧
  curr_time run1.2 = curr_time trial1 + 600.
Proof.
  intros run1 movement_file. split; [vm_compute; reflexivity |].
  split; [vm_compute; reflexivity |]. split; [vm_compute; reflexivity |].
  split; vm_compute; reflexivity.
Qed.

Lemma movement_batch_persisted_witness :
  let run1 :=
    tick (persona_ops := stay_put) (calendar := day_number)
      start_positions trial1 in
  run1 = (Ok tt, run1.2) ∧
  step run1.2 = step trial1 + 1 ∧
  ∃ t batch,
    fs_storage run1.2 !! sim_code trial1 = Some t ∧
    t_movement t !! step trial1 = Some batch ∧
    mv_meta_curr_time batch = Some (curr_time trial1).
Proof.
  intros run1.
  assert (run1 = (Ok tt, run1.2)) as E1
    by (apply run_eq; vm_compute; reflexivity).
  split; [exact E1 |].
  destruct (movement_batch_persisted
              (persona_ops := stay_put) (calendar := day_number)
              start_positions trial1 run1.2 E1)
    as (Hs & _ & t & batch & Ht & Hb & Hm & _).
  split; [exact Hs |]. exists t, batch. exact (conj Ht (conj Hb Hm)).
Defined.

(** C7 fails on the code: when [move] raises for the first persona, the
    call of [start_server] raises; the other persona has not been asked and
    has no record, no movement record has been written, and [step] has not
    advanced. *)
Lemma persona_exception_counterexample :
  let run :=
    start_server (persona_ops := fails_for "Isabella Rodriguez")
      (calendar := day_number) sim_frontend 3 3 trial1 in
  run.1 = Raise (PersonaError "move failed") ∧
  mv_persona (movements run.2) !! "Klaus Mueller" = None ∧
  (fs_storage run.2 !! "trial1" ≫= λ t, t_movement t !! 0) = None ∧
  step run.2 = step trial1.
Proof.
  intros run. split; [vm_compute; reflexivity |].
  split; [vm_compute; reflexivity |].
  split; vm_compute; reflexivity.
Qed.

Lemma persona_exception_aborts_tick_witness :
  ∃ w',
    tick (persona_ops := fails_for "Klaus Mueller") (calendar := day_number)
      start_positions trial1 = (Raise (PersonaError "move failed"), w') ∧
    clock w' = clock trial1 ∧
    fs_storage w' = fs_storage trial1.
Proof.
  destruct (persona_exception_aborts_tick
              (persona_ops := fails_for "Klaus Mueller")
              (calendar := day_number)
              start_positions trial1 trial1_moved
              [("Isabella Rodriguez", isabella)]
              "Klaus Mueller" klaus [] trial1_decided (20, 20)
              (PersonaError "move failed"))
    as (w' & Htick & Hclk & Hfs & _).
  - unfold trial1_moved. apply run_eq. vm_compute. reflexivity.
  - vm_compute. reflexivity.
  - unfold trial1_decided. apply run_eq. vm_compute. reflexivity.
  - vm_compute. reflexivity.
  - right.
    exists (with_scratch_tile_time (20, 20) (curr_time trial1_decided) klaus),
      [].
    split; [reflexivity |]. vm_compute. reflexivity.
  - exists w'. exact (conj Htick (conj Hclk Hfs)).
Defined.

Lemma no_update_no_change_witness :
  controller (polled slow_bridge 2 trial1_entered) = controller trial1_entered ∧
  turns (persona_ops := stay_put) (calendar := day_number) slow_bridge 2
    trial1_entered = (Ok tt, polled slow_bridge 2 trial1_entered) ∧
  turns (persona_ops := stay_put) (calendar := day_number) slow_bridge 3
    trial1_entered
  = tick (persona_ops := stay_put) (calendar := day_number)
      start_positions (polled slow_bridge 3 trial1_entered).
Proof.
  assert (∀ j, (j < 2)%nat →
            (poll slow_bridge (polled slow_bridge j trial1_entered)).1
            = Ok None) as E1.
  { intros [|[|j]] Hj;
      [vm_compute; reflexivity | vm_compute; reflexivity | lia]. }
  destruct (no_update_no_change
              (persona_ops := stay_put) (calendar := day_number)
              slow_bridge 2 trial1_entered E1)
    as (Hturns & Hctl & _ & Hupdate).
  split; [exact Hctl |]. split; [exact Hturns |].
  assert (poll slow_bridge (polled slow_bridge 2 trial1_entered)
          = (Ok (Some start_positions),
             (poll slow_bridge (polled slow_bridge 2 trial1_entered)).2))
    as E2.
  { apply run_eq. vm_compute. reflexivity. }
  apply (Hupdate start_positions). rewrite E2. reflexivity.
Defined.




(** * Further properties of the bridge, the loop and the constructor *)

Section bridge_again.
Context {Maze : Type} {maze_ops : MazeOps Maze}
  {persona_ops : PersonaOps Maze} {calendar : Calendar}.
Implicit Types w : World (Maze := Maze).

Lemma write_environment_twice sim st env fs fs' :
  write_environment sim st env fs = Some fs' →
  write_environment sim st env fs' = Some fs'.
Proof.
  unfold write_environment. destruct (fs !! sim) as [t|] eqn:E; [| done].
  case_decide as Henv; [done |].
  intros [= <-]. rewrite lookup_insert_eq. simpl.
  rewrite decide_False by apply insert_non_empty.
  by rewrite insert_insert_eq, insert_insert_eq.
Qed.

(** X1. Calling [sim_frontend] again with the same [backend_data] and step
    index, on the [frontend_pos] and the storage that the first call left,
    gives the same result and changes nothing more, whether the first call
    returned or raised. *)
Theorem sim_frontend_repeat fp bd st sim fs :
  let first := sim_frontend fp bd st sim fs in
  sim_frontend first.1.2 bd st sim first.2 = first.
Proof.
  intros first. pose proof (sim_frontend_eq fp bd st sim fs) as E1.
  fold first in E1. rewrite sim_frontend_eq.
  destruct (write_environment sim (st + 1) (bd_persona bd) fs) as [fs'|] eqn:E;
    rewrite E1; simpl.
  - rewrite (write_environment_twice _ _ _ _ _ E).
    by rewrite (assoc_L (∪)), (idemp_L (∪)).
  - rewrite E. by rewrite (assoc_L (∪)), (idemp_L (∪)).
Qed.

(** X2. When the folder of the simulation is not there (any more), a call
    of [start_server] for [n ≠ 0] ticks raises [FileNotFoundError] at its
    first poll: no tick runs, and the world is left as it was on entering
    the loop. *)
Theorem start_server_missing_folder fuel n w :
  fs_storage w !! sim_code w = None →
  n ≠ 0 →
  start_server sim_frontend (S fuel) n w =
    (Raise (FileNotFoundError (sim_code w)), (start_server_enter n w).2).
Proof.
  intros Hfs Hn. unfold start_server.
  set (w1 := (start_server_enter n w).2).
  assert (start_server_enter n w = (Ok tt, w1)) as E1 by done.
  rewrite (bind_Ok _ _ _ _ _ E1). cbn [server_loop].
  unfold bind at 1. unfold gets at 1.
  assert (int_counter w1 = n) as -> by done.
  rewrite decide_False by done.
  assert (poll sim_frontend w1 = (Raise (FileNotFoundError (sim_code w)), w1))
    as E2.
  { unfold poll. rewrite sim_frontend_eq. unfold write_environment.
    assert (fs_storage w1 !! sim_code w1 = None) as -> by done.
    subst w1. simpl. by rewrite (idemp_L (∪)). }
  assert (loop_body sim_frontend w1 =
          (Raise (FileNotFoundError (sim_code w)), w1)) as E3.
  { unfold loop_body. by rewrite (bind_Raise _ _ _ _ _ E2). }
  by rewrite (bind_Raise _ _ _ _ _ E3).
Qed.

End bridge_again.

Section loop_again.
Context {Maze : Type} {maze_ops : MazeOps Maze}
  {persona_ops : PersonaOps Maze} {calendar : Calendar}.
Implicit Types w : World (Maze := Maze).

Lemma for_each_app {A} (g : A → M (Maze := Maze) unit) l1 l2 w :
  for_each g (l1 ++ l2) w = bind (for_each g l1) (λ _, for_each g l2) w.
Proof.
  revert w. induction l1 as [|x l1 IH]; intros w; [done |].
  cbn [for_each app]. rewrite bind_assoc. apply bind_ext. intros _ w1. apply IH.
Qed.

(** X3. An update that has no position for a registered persona makes the
    tick raise [KeyError] for the first such persona: the ledger has been
    cleaned up and the personas before it have been moved, and that is all;
    nobody is asked to decide, nothing is written, the clock stands. *)
Theorem update_without_persona env w pre nm p post :
  personas w = pre ++ (nm, p) :: post →
  (∀ nm' p', (nm', p') ∈ pre →
     is_Some (personas_tile w !! nm') ∧ is_Some (env !! nm')) →
  env !! nm = None →
  ∃ w',
    for_each (move_persona env) pre (cleanup_objects w).2 = (Ok tt, w') ∧
    tick env w = (Raise (KeyError nm), w') ∧
    outside_move w' = outside_move w.
Proof.
  intros Hps Hpre Hnm.
  pose proof (cleanup_objects_eq w) as Hc.
  set (w1 := set_game_obj_cleanup [] _) in Hc.
  destruct (move_loop_returns env pre w1) as (w2 & H2 & _); [done |].
  exists w2. rewrite Hc. simpl. split; [done |].
  assert (move_persona env (nm, p) w2 = (Raise (KeyError nm), w2)) as Hraise.
  { rewrite move_persona_eq, Hnm. by destruct (personas_tile w2 !! nm). }
  assert (move_personas env w1 = (Raise (KeyError nm), w2)) as Hmove.
  { unfold move_personas, bind, gets.
    assert (personas w1 = pre ++ (nm, p) :: post) as -> by done.
    rewrite for_each_app. rewrite (bind_Ok _ _ _ _ _ H2). cbn [for_each].
    by rewrite (bind_Raise _ _ _ _ _ Hraise). }
  split.
  - unfold tick. rewrite (bind_Ok _ _ _ _ _ Hc). unfold tick_body.
    by rewrite (bind_Raise _ _ _ _ _ Hmove).
  - pose proof (move_personas_outside env w1) as E. rewrite Hmove in E.
    simpl in E. rewrite E. done.
Qed.

Lemma store_persona_enrolment i p :
  preserves (Maze := Maze) enrolment (store_persona i p).
Proof.
  intros w. unfold enrolment, persona_names. simpl. by rewrite alter_keys.
Qed.

Lemma tick_enrolment env : preserves (Maze := Maze) enrolment (tick env).
Proof.
  unfold tick, tick_body.
  apply preserves_bind; [frame | intros _].
  apply preserves_bind; [frame | intros _].
  apply preserves_bind.
  { unfold decide_personas.
    apply preserves_bind; [frame_step | intros _].
    apply preserves_bind; [frame_step | intros ps].
    apply preserves_for_each_from. intros j [nm p]. unfold decide_persona.
    repeat first [ apply store_persona_enrolment | frame_step ]. }
  intros _. apply preserves_bind; [frame | intros _].
  unfold advance. frame.
Qed.

Lemma poll_enrolment br : preserves (Maze := Maze) enrolment (poll br).
Proof.
  intros w. pose proof (poll_controller br w) as E.
  unfold controller, clock in E. unfold enrolment, persona_names.
  unfold poll in *. by destruct (br _ _ _ _ _) as [[r fp] fs].
Qed.

Lemma server_loop_enrolment br fuel :
  preserves (Maze := Maze) enrolment (server_loop br fuel).
Proof.
  induction fuel as [|fuel IH]; cbn [server_loop].
  - apply preserves_bind; [frame_step | intros c]. case_decide; frame_step.
  - apply preserves_bind; [frame_step | intros c].
    case_decide; [frame_step |].
    apply preserves_bind; [| intros _; apply IH].
    unfold loop_body.
    apply preserves_bind; [apply poll_enrolment | intros [env|]].
    + apply tick_enrolment.
    + frame_step.
Qed.

Lemma start_server_enrolment br fuel n :
  preserves (Maze := Maze) enrolment (start_server br fuel n).
Proof.
  unfold start_server, start_server_enter.
  apply preserves_bind; [frame | intros _]. apply server_loop_enrolment.
Qed.

(** X4. Whatever the bridge, however long the loop runs and whether it
    returns or raises, [start_server] registers no persona and drops none,
    keeps their order, and leaves the simulation codes, the start date and
    the length of a step as they are. *)
Theorem start_server_keeps_enrolment br fuel n w :
  let w' := (start_server br fuel n w).2 in
  persona_names w' = persona_names w ∧
  length (personas w') = length (personas w) ∧
  (sim_code w', fork_sim_code w') = (sim_code w, fork_sim_code w) ∧
  (start_time w', sec_per_step w') = (start_time w, sec_per_step w).
Proof.
  intros w'. pose proof (start_server_enrolment br fuel n w) as E.
  fold w' in E. unfold enrolment in E. injection E as E1 E2 E3 E4 E5.
  split; [done |]. split.
  - unfold persona_names in E1.
    by rewrite <- (length_fmap fst (personas w')), E1, length_fmap.
  - by rewrite E2, E3, E4, E5.
Qed.

End loop_again.

Section constructor_again.
Context {Maze : Type} {maze_ops : MazeOps Maze}
  {persona_ops : PersonaOps Maze} {calendar : Calendar}.
Implicit Types w : World (Maze := Maze).

(** X5. Forking a simulation onto itself destroys it: the constructor
    removes the folder as the existing target, finds no source to copy and
    raises, and the folder is gone. *)
Theorem fork_onto_itself_deletes A fp fs :
  is_Some (fs !! A) →
  ReverieServer_init (Maze := Maze) A A fp fs =
    (Raise (FileNotFoundError A), fp, delete A fs).
Proof.
  intros HA. unfold ReverieServer_init, fork_folder, copyanything.
  rewrite decide_True by done. by rewrite lookup_delete_eq.
Qed.

(** What loading one persona does. *)
Lemma load_persona_eq init_env t nm w :
  load_persona init_env t nm w =
  match init_env !! nm with
  | None => (Raise (KeyError nm), w)
  | Some (EnvTile _) => (Raise TypeError, w)
  | Some (EnvNode _ _ start_node) =>
      match Persona_load nm t with
      | None => (Raise (FileNotFoundError nm), w)
      | Some curr_persona =>
          (Ok tt,
           do_calls
             [AddEvent (get_curr_event_and_desc (scratch curr_persona))
                start_node]
             (set_frontend_pos (<[nm := start_node]> (frontend_pos w))
                (set_personas_tile (<[nm := start_node]> (personas_tile w))
                   (set_personas (oset nm curr_persona (personas w)) w))))
      end
  end.
Proof.
  unfold load_persona, bind, subscript, modify, ret, raise.
  destruct (init_env !! nm) as [[x y start_node|tile]|]; [| done..].
  destruct (Persona_load nm t) as [curr_persona|]; [| done].
  by rewrite maze_call_eq.
Qed.

(** Loading reads the folder and writes none; the attributes taken from
    [reverie_meta] stay. *)
Lemma load_persona_attributes init_env t nm :
  preserves (Maze := Maze)
    (λ w, (clock w, fork_sim_code w, start_time w, fs_storage w))
    (load_persona init_env t nm).
Proof.
  intros w. rewrite load_persona_eq.
  destruct (init_env !! nm) as [[x y start_node|tile]|]; [| done..].
  by destruct (Persona_load nm t).
Qed.

Lemma load_loop_attributes init_env t l :
  preserves (Maze := Maze)
    (λ w, (clock w, fork_sim_code w, start_time w, fs_storage w))
    (for_each (load_persona init_env t) l).
Proof. apply preserves_for_each. intros nm. apply load_persona_attributes. Qed.

Lemma oset_keys_r {K V} `{EqDecision K} (k k' : K) (v : V) d :
  k' = k ∨ k' ∈ d.*1 → k' ∈ (oset k v d).*1.
Proof.
  induction d as [|[k0 v0] d IH]; simpl.
  - intros [->|[]%elem_of_nil]. apply list_elem_of_here.
  - case_decide as Hk; simpl.
    + subst k0. intros [->|Hin]; [apply list_elem_of_here | done].
    + intros [->|[->|Hin]%elem_of_cons].
      * apply list_elem_of_further, IH. by left.
      * apply list_elem_of_here.
      * apply list_elem_of_further, IH. by right.
Qed.

Lemma oset_NoDup {K V} `{EqDecision K} (k : K) (v : V) d :
  NoDup d.*1 → NoDup (oset k v d).*1.
Proof.
  induction d as [|[k0 v0] d IH]; simpl.
  - intros _. apply NoDup_singleton.
  - intros [Hk0 Hd]%NoDup_cons. case_decide as Hk; simpl.
    + subst k0. by apply NoDup_cons.
    + apply NoDup_cons. split; [| by apply IH].
      intros [->|Hin]%oset_keys; [done | by apply Hk0].
Qed.

(** What a successful pass of the loading loop leaves. *)
Lemma load_loop_Ok init_env t l w w' :
  for_each (load_persona init_env t) l w = (Ok tt, w') →
  (∀ nm, nm ∈ persona_names w' ↔ nm ∈ persona_names w ∨ nm ∈ l) ∧
  (NoDup (persona_names w) → NoDup (persona_names w')) ∧
  (∀ nm, nm ∈ l →
     ∃ x y start_node,
       init_env !! nm = Some (EnvNode x y start_node) ∧
       personas_tile w' !! nm = Some start_node ∧
       frontend_pos w' !! nm = Some start_node) ∧
  (∀ nm, nm ∉ l →
     personas_tile w' !! nm = personas_tile w !! nm ∧
     frontend_pos w' !! nm = frontend_pos w !! nm).
Proof.
  revert w. induction l as [|x l IH]; intros w; cbn [for_each].
  - intros [= <-]. split; [| split; [done | split]].
    + intros nm. split; [by left | intros [H|[]%elem_of_nil]; done].
    + intros nm []%elem_of_nil.
    + done.
  - intros ([] & w1 & H1 & Hl)%bind_Ok_inv.
    destruct (IH w1 Hl) as (Hnames & Hnd & Hin & Hout).
    rewrite load_persona_eq in H1.
    destruct (init_env !! x) as [[px py start_node|tile]|] eqn:Hx; [| done..].
    destruct (Persona_load x t) as [curr_persona|]; [| done].
    injection H1 as <-.
    split; [| split; [| split]].
    + intros nm. rewrite Hnames. unfold persona_names. simpl.
      rewrite elem_of_cons. split.
      * intros [[->|H]%oset_keys|H]; tauto.
      * intros [H|[->|H]]; [left; apply oset_keys_r; by right
                           | left; apply oset_keys_r; by left | by right].
    + intros Hw. apply Hnd. unfold persona_names. simpl. by apply oset_NoDup.
    + intros nm [->|Hnm]%elem_of_cons.
      * destruct (decide (x ∈ l)) as [Hxl|Hxl].
        -- destruct (Hin x Hxl) as (x' & y' & node' & E & ? & ?).
           exists x', y', node'. done.
        -- destruct (Hout x Hxl) as [E1 E2]. simpl in E1, E2.
           rewrite lookup_insert_eq in E1, E2.
           exists px, py, start_node. done.
      * by apply Hin.
    + intros nm [Hne Hnm]%not_elem_of_cons.
      destruct (Hout nm Hnm) as [E1 E2]. simpl in E1, E2.
      by rewrite lookup_insert_ne in E1, E2.
Qed.

(** The loading loop returns when every name has a node entry in the
    environment file and a persona folder. *)
Lemma load_loop_returns init_env t l w :
  (∀ nm, nm ∈ l →
     (∃ x y start_node, init_env !! nm = Some (EnvNode x y start_node)) ∧
     is_Some (t_personas t !! nm)) →
  ∃ w', for_each (load_persona init_env t) l w = (Ok tt, w').
Proof.
  revert w. induction l as [|x l IH]; intros w Hl; cbn [for_each].
  - by eexists.
  - destruct (Hl x) as [(px & py & node & Hx) [p Hp]]; [apply list_elem_of_here |].
    pose proof (load_persona_eq init_env t x w) as E. rewrite Hx in E.
    unfold Persona_load in E. rewrite Hp in E.
    rewrite (bind_Ok _ _ _ _ _ E). apply IH.
    intros nm Hnm. apply Hl. by apply list_elem_of_further.
Qed.

(** What the constructor returns when the fork has succeeded. *)
Lemma ReverieServer_init_forked A B fp fs t m :
  A ≠ B → fs !! A = Some t → t_meta t = Some m →
  let reverie_meta :=
    mkMeta A (meta_start_date m) (meta_curr_time m) (meta_sec_per_step m)
      (meta_maze_name m) (meta_persona_names m) (meta_step m) in
  let copy :=
    mkTree (Some reverie_meta) (t_environment t) (t_movement t)
      (t_personas t) in
  let w0 :=
    mkWorld A B (meta_start_date m) (meta_curr_time m) (meta_sec_per_step m)
      (Maze_new (meta_maze_name m)) (meta_step m) [] ∅ 0 []
      (mkBackendData 0 ∅) (mkMovements ∅ None) fp (<[B := copy]> fs) [] in
  ReverieServer_init A B fp fs =
  match t_environment t !! meta_step m with
  | None => (Raise (FileNotFoundError B), fp, <[B := copy]> fs)
  | Some init_env =>
      match for_each (load_persona init_env copy) (meta_persona_names m) w0 with
      | (Ok _, w) => (Ok w, frontend_pos w, fs_storage w)
      | (Raise e, w) => (Raise e, frontend_pos w, fs_storage w)
      end
  end.
Proof.
  intros Hne Ht Hm reverie_meta copy w0. unfold ReverieServer_init.
  rewrite (fork_folder_Ok A B fs t m Hne Ht Hm). fold reverie_meta copy.
  unfold load_server. rewrite lookup_insert_eq. simpl.
  destruct (t_environment t !! meta_step m) as [init_env|]; [| done].
  fold w0. by destruct (for_each _ _ w0) as [[[]|e] w].
Qed.

(** The constructor succeeds only with a source other than the target
    that is there with its [meta.json]. *)
Lemma ReverieServer_init_Ok_source A B fp fs w fp' fs' :
  ReverieServer_init A B fp fs = (Ok w, fp', fs') →
  A ≠ B ∧ ∃ t m, fs !! A = Some t ∧ t_meta t = Some m.
Proof.
  unfold ReverieServer_init, fork_folder, copyanything.
  set (fs1 := if decide (is_Some (fs !! B)) then delete B fs else fs).
  assert (fs1 !! B = None) as H2.
  { unfold fs1. case_decide as Hs; [by rewrite lookup_delete_eq |].
    by apply eq_None_not_Some. }
  destruct (decide (A = B)) as [->|Hne].
  { by rewrite H2. }
  assert (fs1 !! A = fs !! A) as H1.
  { unfold fs1. case_decide; [by rewrite lookup_delete_ne | done]. }
  rewrite H1, H2. destruct (fs !! A) as [t|]; [| done].
  rewrite lookup_insert_eq. destruct (t_meta t) as [m|] eqn:Hm; [| done].
  intros _. split; [done |]. by exists t, m.
Qed.

(** X6. Once the fork has been made (the source is there with its
    [meta.json] and is not the target), the target folder stays as the fork
    left it however the loading ends: a failed construction leaves its
    target behind.  Loading fails with [FileNotFoundError] when the source
    has no environment file for the step of its [meta.json], and with
    [KeyError] for the first persona of [meta.json] that has no entry in
    that file. *)
Theorem failed_load_leaves_target A B fp fs t m :
  A ≠ B → fs !! A = Some t → t_meta t = Some m →
  let reverie_meta :=
    mkMeta A (meta_start_date m) (meta_curr_time m) (meta_sec_per_step m)
      (meta_maze_name m) (meta_persona_names m) (meta_step m) in
  let copy :=
    mkTree (Some reverie_meta) (t_environment t) (t_movement t)
      (t_personas t) in
  (ReverieServer_init (Maze := Maze) A B fp fs).2 = <[B := copy]> fs ∧
  (t_environment t !! meta_step m = None →
   ReverieServer_init (Maze := Maze) A B fp fs =
     (Raise (FileNotFoundError B), fp, <[B := copy]> fs)) ∧
  (∀ init_env pre nm post,
     t_environment t !! meta_step m = Some init_env →
     meta_persona_names m = pre ++ nm :: post →
     (∀ nm', nm' ∈ pre →
        (∃ x y start_node, init_env !! nm' = Some (EnvNode x y start_node)) ∧
        is_Some (t_personas t !! nm')) →
     init_env !! nm = None →
     (ReverieServer_init (Maze := Maze) A B fp fs).1.1 = Raise (KeyError nm)).
Proof.
  intros Hne Ht Hm reverie_meta copy.
  pose proof (ReverieServer_init_forked A B fp fs t m Hne Ht Hm) as E.
  cbv zeta in E. fold reverie_meta copy in E.
  set (w0 := mkWorld _ _ _ _ _ _ _ _ _ _ _ _ _ _ _ _) in E.
  split; [| split].
  - rewrite E. destruct (t_environment t !! meta_step m) as [init_env|]; [| done].
    pose proof (load_loop_attributes init_env copy (meta_persona_names m) w0)
      as F.
    destruct (for_each _ _ w0) as [[[]|e] w]; simpl in *; congruence.
  - intros Henv. by rewrite E, Henv.
  - intros init_env pre nm post Henv Hnames Hpre Hnm.
    rewrite E, Henv, Hnames, for_each_app.
    destruct (load_loop_returns init_env copy pre w0 Hpre) as [w1 H1].
    rewrite (bind_Ok _ _ _ _ _ H1). cbn [for_each].
    pose proof (load_persona_eq init_env copy nm w1) as E2. rewrite Hnm in E2.
    by rewrite (bind_Raise _ _ _ _ _ E2).
Qed.

(** X7. The server that the constructor returns has the clock, the step
    and the codes of the source's [meta.json]; the personas registered are
    those named there, each once; each stands on the start node that the
    environment file of that step gives it, and [frontend_pos] holds the
    same node for it, its other entries being as before. *)
Theorem constructor_registers_personas A B fp fs w fp' fs' :
  ReverieServer_init A B fp fs = (Ok w, fp', fs') →
  ∃ t m init_env,
    fs !! A = Some t ∧ t_meta t = Some m ∧
    t_environment t !! meta_step m = Some init_env ∧
    (fork_sim_code w, sim_code w, start_time w, curr_time w, sec_per_step w,
     step w) =
    (A, B, meta_start_date m, meta_curr_time m, meta_sec_per_step m,
     meta_step m) ∧
    frontend_pos w = fp' ∧
    NoDup (persona_names w) ∧
    (∀ nm, nm ∈ persona_names w ↔ nm ∈ meta_persona_names m) ∧
    (∀ nm, nm ∈ meta_persona_names m →
       ∃ x y start_node,
         init_env !! nm = Some (EnvNode x y start_node) ∧
         personas_tile w !! nm = Some start_node ∧
         fp' !! nm = Some start_node) ∧
    (∀ nm, nm ∉ meta_persona_names m →
       personas_tile w !! nm = None ∧ fp' !! nm = fp !! nm).
Proof.
  intros Hinit.
  destruct (ReverieServer_init_Ok_source _ _ _ _ _ _ _ Hinit)
    as (Hne & t & m & Ht & Hm).
  rewrite (ReverieServer_init_forked A B fp fs t m Hne Ht Hm) in Hinit.
  cbv zeta in Hinit.
  destruct (t_environment t !! meta_step m) as [init_env|] eqn:Henv; [| done].
  set (copy := mkTree _ _ _ _) in Hinit.
  set (w0 := mkWorld _ _ _ _ _ _ _ _ _ _ _ _ _ _ _ _) in Hinit.
  destruct (for_each _ _ w0) as [[[]|e] w1] eqn:Hload; [| done].
  injection Hinit as -> <- <-.
  exists t, m, init_env. split; [done |]. split; [done |]. split; [done |].
  pose proof (load_loop_attributes init_env copy (meta_persona_names m) w0) as F.
  rewrite Hload in F. simpl in F. unfold clock in F.
  destruct (load_loop_Ok _ _ _ _ _ Hload) as (Hnames & Hnd & Hin & Hout).
  split; [| split; [done | split; [| split; [| split]]]].
  - injection F as -> -> -> _ -> -> ->. done.
  - apply Hnd. apply NoDup_nil_2.
  - intros nm. rewrite Hnames. split; [intros [[]%elem_of_nil|H]; done | by right].
  - done.
  - intros nm Hnm. by destruct (Hout nm Hnm) as [-> ->].
Qed.

End constructor_again.

Section tick_again.
Context {Maze : Type} {maze_ops : MazeOps Maze}
  {persona_ops : PersonaOps Maze} {calendar : Calendar}.
Implicit Types w : World (Maze := Maze).

Lemma tick_to_batch_advance env w :
  tick env w = bind (tick_to_batch env) (λ _, advance) w.
Proof.
  unfold tick, tick_body, tick_to_batch.
  rewrite !bind_assoc. apply bind_ext. intros _ w1.
  rewrite !bind_assoc. apply bind_ext. intros _ w2.
  by rewrite !bind_assoc.
Qed.

Lemma tick_to_batch_clock env :
  preserves (Maze := Maze) clock (tick_to_batch env).
Proof.
  unfold tick_to_batch.
  apply preserves_bind; [apply cleanup_objects_clock | intros _].
  apply preserves_bind; [apply move_personas_clock | intros _].
  apply preserves_bind; [apply decide_personas_clock | intros _].
  apply save_movements_clock.
Qed.

Lemma tick_to_batch_Ok env w w4 :
  tick_to_batch env w = (Ok tt, w4) →
  movement_file (step w) w4 = Some (movements w4) ∧
  mv_meta_curr_time (movements w4) = Some (curr_time w).
Proof.
  unfold tick_to_batch.
  intros ([] & w1 & H1 & ([] & w2 & H2 & ([] & w3 & H3 & H4)%bind_Ok_inv)
            %bind_Ok_inv)%bind_Ok_inv.
  pose proof (cleanup_objects_clock w) as E1. rewrite H1 in E1.
  pose proof (move_personas_clock env w1) as E2. rewrite H2 in E2.
  pose proof (decide_personas_clock w2) as E3. rewrite H3 in E3.
  pose proof (save_movements_clock w3) as E4. rewrite H4 in E4.
  simpl in *. unfold clock in *.
  apply save_movements_Ok in H4 as (Hmv & _ & _ & t & Hfs & Hfile).
  assert (step w3 = step w) as Es by congruence.
  assert (curr_time w3 = curr_time w) as Et by congruence.
  assert (sim_code w4 = sim_code w3) as Ec by congruence.
  split.
  - unfold movement_file, sim_folder. rewrite Ec, Hfs. simpl. by rewrite <- Es.
  - rewrite Hmv. simpl. by rewrite Et.
Qed.

(** X8. Line 346 comes before line 347: when adding [sec_per_step] to the
    clock leaves the range of [datetime], no tick completes, and a tick that
    gets as far as the clock raises [OverflowError] with the movement batch
    of the step written and [step] already incremented, while the clock and
    the remaining-tick counter are as before. *)
Theorem clock_overflow_after_step env w :
  ¬ (0 ≤ curr_time w + sec_per_step w ≤ datetime_max) →
  (∀ w', tick env w ≠ (Ok tt, w')) ∧
  ∀ w4,
    tick_to_batch env w = (Ok tt, w4) →
    tick env w = (Raise OverflowError, set_step (step w + 1) w4) ∧
    clock (tick env w).2 =
      (step w + 1, curr_time w, sec_per_step w, int_counter w, sim_code w) ∧
    movement_file (step w) (tick env w).2 = Some (movements w4) ∧
    mv_meta_curr_time (movements w4) = Some (curr_time w).
Proof.
  intros Hrange.
  assert (∀ w4, tick_to_batch env w = (Ok tt, w4) →
                advance w4 = (Raise OverflowError, set_step (step w + 1) w4))
    as Hadv.
  { intros w4 H4. pose proof (tick_to_batch_clock env w) as E.
    rewrite H4 in E. simpl in E. unfold clock in E.
    injection E as Es Et Esps _ _.
    rewrite advance_eq, Es, Et, Esps. unfold datetime_add.
    by rewrite decide_False. }
  split.
  - intros w' Htick. rewrite tick_to_batch_advance in Htick.
    apply bind_Ok_inv in Htick as ([] & w4 & H4 & H5).
    by rewrite (Hadv w4 H4) in H5.
  - intros w4 H4.
    assert (tick env w = (Raise OverflowError, set_step (step w + 1) w4))
      as Htick.
    { rewrite tick_to_batch_advance, (bind_Ok _ _ _ _ _ H4). by apply Hadv. }
    split; [done |]. rewrite Htick. simpl.
    pose proof (tick_to_batch_clock env w) as E.
    rewrite H4 in E. simpl in E. unfold clock in E.
    injection E as Es Et Esps Ei Esim.
    destruct (tick_to_batch_Ok env w w4 H4) as [Hfile Hmeta].
    split; [| split; [| done]].
    + unfold clock. simpl. by rewrite Et, Esps, Ei, Esim.
    + unfold movement_file, sim_folder in *. simpl. done.
Qed.

(** After a pass of the move loop every persona it went through stands on
    the tile that the update gives it. *)
Lemma move_loop_tiles env l w w' :
  for_each (move_persona env) l w = (Ok tt, w') →
  (∀ nm, nm ∈ l.*1 →
     is_Some (env !! nm) ∧ personas_tile w' !! nm = env !! nm) ∧
  (∀ nm, nm ∉ l.*1 → personas_tile w' !! nm = personas_tile w !! nm).
Proof.
  revert w. induction l as [|[x p] l IH]; intros w; cbn [for_each].
  - intros [= <-]. split; [intros nm []%elem_of_nil | done].
  - intros ([] & w1 & H1 & Hl)%bind_Ok_inv.
    destruct (IH w1 Hl) as [Hin Hout].
    rewrite move_persona_eq in H1.
    destruct (personas_tile w !! x) as [cur|]; [| done].
    destruct (env !! x) as [new|] eqn:Hx; [| done].
    injection H1 as <-. rewrite moved_personas_tile in Hout.
    split.
    + intros nm Hnm. cbn in Hnm. apply elem_of_cons in Hnm as [->|Hnm];
        [| by apply Hin].
      destruct (decide (x ∈ l.*1)) as [Hxl|Hxl]; [by apply Hin |].
      rewrite (Hout x Hxl), lookup_insert_eq. eauto.
    + intros nm Hnm. cbn in Hnm. apply not_elem_of_cons in Hnm as [Hne Hnm].
      rewrite (Hout nm Hnm). by rewrite lookup_insert_ne.
Qed.

Lemma tick_Ok_tiles env w w' :
  tick env w = (Ok tt, w') →
  (∀ nm, nm ∈ persona_names w →
     is_Some (env !! nm) ∧ personas_tile w' !! nm = env !! nm) ∧
  (∀ nm, nm ∉ persona_names w → personas_tile w' !! nm = personas_tile w !! nm).
Proof.
  intros Htick. pose proof Htick as Hbk.
  rewrite tick_eq in Hbk. set (w1 := set_game_obj_cleanup [] _) in Hbk.
  pose proof (tick_body_bookkeeping env w1) as E. rewrite Hbk in E.
  unfold tick_body in Hbk. apply bind_Ok_inv in Hbk as ([] & w2 & H2 & _).
  rewrite H2 in E. simpl in E. unfold bookkeeping in E.
  injection E as _ _ _ Etiles. rewrite Etiles.
  unfold move_personas, bind, gets in H2.
  apply (move_loop_tiles env (personas w1) w1 w2 H2).
Qed.

(** X9. After a completed tick every registered persona stands on the tile
    that the update reported for it (the update had one for each), and
    [personas_tile] is otherwise as before. *)
Theorem tick_moves_to_update env w w' :
  tick env w = (Ok tt, w') →
  (∀ nm, nm ∈ persona_names w →
     ∃ tile, env !! nm = Some tile ∧ personas_tile w' !! nm = Some tile) ∧
  (∀ nm, nm ∉ persona_names w → personas_tile w' !! nm = personas_tile w !! nm).
Proof.
  intros Htick. destruct (tick_Ok_tiles env w w' Htick) as [Hin Hout].
  split; [| done].
  intros nm Hnm. destruct (Hin nm Hnm) as [[tile Ht] E].
  exists tile. by rewrite E.
Qed.

(** What one pass of the decide loop does for its persona. *)
Lemma decide_persona_Ok_move i nm p w w' :
  decide_persona i (nm, p) w = (Ok tt, w') →
  ∃ tile mvt,
    personas_tile w !! nm = Some tile ∧
    decided_by p tile (curr_time w) (maze w) mvt ∧
    movements w' =
      mkMovements (<[nm := mvt]> (mv_persona (movements w)))
        (mv_meta_curr_time (movements w)) ∧
    backend_data w' =
      mkBackendData (bd_time (backend_data w))
        (<[nm := mv_movement mvt]> (bd_persona (backend_data w))).
Proof.
  unfold decide_persona, bind, gets, subscript, await, store_persona, modify,
    ret, raise.
  destruct (personas_tile w !! nm) as [tile|]; [| done]. simpl.
  destruct (perceive _ _) as [e|[p2 perceived]] eqn:Hp; [done |]. simpl.
  destruct (move _ _ _ _ _ _ _) as [e|[p3 d]] eqn:Hm; [done |]. simpl.
  intros [= <-]. simpl. eexists tile, _. split; [done |].
  split; [| split; reflexivity].
  unfold decided_by. by eexists p2, perceived, _, p3, d.
Qed.

(** Each persona that has decided has a record in the batch, which is what
    [move] returned for it, and the position reported back for it is the
    movement of that record. *)
Lemma decide_loop_records i l w w' :
  for_each_from i decide_persona l w = (Ok tt, w') →
  (∀ nm, nm ∈ l.*1 →
     ∃ p tile mvt,
       (nm, p) ∈ l ∧ personas_tile w !! nm = Some tile ∧
       decided_by p tile (curr_time w) (maze w) mvt ∧
       mv_persona (movements w') !! nm = Some mvt ∧
       bd_persona (backend_data w') !! nm = Some (mv_movement mvt)) ∧
  (∀ nm, nm ∉ l.*1 →
     mv_persona (movements w') !! nm = mv_persona (movements w) !! nm ∧
     bd_persona (backend_data w') !! nm = bd_persona (backend_data w) !! nm).
Proof.
  revert i w. induction l as [|[x p] l IH]; intros i w; cbn [for_each_from].
  - intros [= <-]. split; [intros nm []%elem_of_nil | done].
  - intros ([] & w1 & H1 & Hl)%bind_Ok_inv.
    destruct (IH _ _ Hl) as [Hin Hout].
    pose proof (decide_persona_outside i (x, p) w) as Eout.
    rewrite H1 in Eout. simpl in Eout.
    unfold outside_decide, bookkeeping, clock in Eout.
    injection Eout as _ Et _ _ _ Emz _ _ Etiles _ _ _.
    apply decide_persona_Ok_move in H1 as (tile0 & mvt0 & Htile0 & Hdec0 & Hmv & Hbd).
    rewrite Hmv, Hbd in Hout. simpl in Hout.
    split.
    + intros nm Hnm. cbn in Hnm.
      destruct (decide (nm ∈ l.*1)) as [Hnl|Hnl].
      * destruct (Hin nm Hnl) as (p' & tile & mvt & Hp' & Ht' & Hd' & Hm' & Hb').
        exists p', tile, mvt. rewrite Et, Emz, Etiles in *.
        split; [by apply list_elem_of_further | done].
      * apply elem_of_cons in Hnm as [->|Hnm]; [| done].
        destruct (Hout x Hnl) as [E1 E2].
        rewrite lookup_insert_eq in E1. rewrite lookup_insert_eq in E2.
        exists p, tile0, mvt0. split; [apply list_elem_of_here | done].
    + intros nm Hnm. cbn in Hnm. apply not_elem_of_cons in Hnm as [Hne Hnm].
      destruct (Hout nm Hnm) as [E1 E2].
      rewrite lookup_insert_ne in E1 by done.
      by rewrite lookup_insert_ne in E2.
Qed.

(** The batch written by a completed tick and the positions it reports
    back. *)
Lemma tick_Ok_records env w w' :
  tick env w = (Ok tt, w') →
  ∃ batch,
    movement_file (step w) w' = Some batch ∧
    ∀ nm, nm ∈ persona_names w →
      ∃ p tile mvt,
        (nm, p) ∈ personas w ∧ env !! nm = Some tile ∧
        decided_by p tile (curr_time w) (maze w') mvt ∧
        mv_persona batch !! nm = Some mvt ∧
        bd_persona (backend_data w') !! nm = Some (mv_movement mvt).
Proof.
  intros Htick.
  pose proof (tick_enrolment env w) as Een. rewrite Htick in Een.
  simpl in Een. unfold enrolment in Een. injection Een as Enames Esim _ _ _.
  pose proof Htick as Hinv.
  apply tick_Ok_inv in Hinv as (w1 & w2 & w3 & w4 & H1 & H2 & H3 & H4 & H5).
  pose proof (cleanup_objects_outside w) as E1. rewrite H1 in E1.
  pose proof (move_personas_outside env w1) as E2. rewrite H2 in E2.
  pose proof (decide_personas_outside w2) as E3. rewrite H3 in E3.
  pose proof (save_movements_registry w3) as E4. rewrite H4 in E4.
  pose proof (save_movements_bookkeeping w3) as E4b. rewrite H4 in E4b.
  pose proof (advance_registry w4) as E5. rewrite H5 in E5.
  pose proof (advance_bookkeeping w4) as E5b. rewrite H5 in E5b.
  unfold outside_move, outside_decide, registry, bookkeeping, clock in *.
  simpl in *.
  injection E1 as E1s E1t _ _ E1c _ _ E1p _ _.
  injection E2 as E2s E2t _ _ E2c _ _ E2p _ _.
  injection E3 as E3s _ _ _ E3c E3mz _ _ _ _ _ _.
  injection E4 as E4p E4t E4bd. injection E5 as E5p E5t E5bd E5f.
  injection E4b as E4mz _ _ _. injection E5b as E5mz _ _ _.
  pose proof (save_movements_Ok _ _ H4) as (Hmv & _ & _ & t & Hfs & Hfile).
  assert (sim_code w3 = sim_code w) as Ec by congruence.
  assert (step w3 = step w) as Es by congruence.
  assert (curr_time w2 = curr_time w) as Etime by congruence.
  assert (maze w' = maze w2) as Emaze by congruence.
  rewrite Ec in Hfs. rewrite Es in Hfile.
  unfold move_personas, bind, gets in H2.
  destruct (move_loop_tiles env _ _ _ H2) as [Htiles _].
  unfold decide_personas, bind, modify, gets in H3.
  apply decide_loop_records in H3 as [Hin _].
  exists (movements w4). split.
  - unfold movement_file, sim_folder. rewrite Esim, E5f, Hfs. done.
  - intros nm Hnm. destruct (Hin nm) as (p & tile & mvt & Hp & Ht & Hd & Hrec & Hpos).
    { simpl. unfold persona_names in Hnm. by rewrite E2p, E1p. }
    simpl in Hp, Ht, Hd.
    exists p, tile, mvt. split; [by rewrite E2p, E1p in Hp |].
    destruct (Htiles nm) as [_ Htile].
    { unfold persona_names in Hnm. by rewrite E1p. }
    split; [by rewrite <- Htile |].
    split; [by rewrite Emaze, <- Etime |].
    rewrite Hmv. simpl. split; [done |]. by rewrite E5bd, E4bd.
Qed.

Lemma poll_sim_frontend_Ok w t :
  sim_folder w = Some t →
  t_environment t ≠ ∅ →
  poll sim_frontend w =
    (Ok (Some (bd_persona (backend_data w))),
     set_fs_storage
       (<[sim_code w :=
            mkTree (t_meta t)
              (<[step w + 1 := EnvTile <$> bd_persona (backend_data w)]>
                 (t_environment t))
              (t_movement t) (t_personas t)]> (fs_storage w))
       (set_frontend_pos (bd_persona (backend_data w) ∪ frontend_pos w) w)).
Proof.
  unfold sim_folder. intros Ht Henv. unfold poll. rewrite sim_frontend_eq.
  unfold write_environment. by rewrite Ht, decide_False.
Qed.

End tick_again.

Section files.
Context {Maze : Type} {maze_ops : MazeOps Maze}
  {persona_ops : PersonaOps Maze} {calendar : Calendar}.
Implicit Types w : World (Maze := Maze).

Lemma movement_file_files k w :
  movement_file k w = (movement_files w).2 !! k.
Proof.
  unfold movement_file, movement_files. simpl.
  by destruct (sim_folder w).
Qed.

Lemma environment_file_files k w :
  environment_file k w = (environment_files w).2 !! k.
Proof.
  unfold environment_file, environment_files. simpl.
  by destruct (sim_folder w).
Qed.

(** A tick writes one movement file and nothing else of the folder. *)
Lemma save_movements_snapshot :
  preserves (Maze := Maze) snapshot_files save_movements.
Proof.
  intros w. unfold save_movements, bind, modify, snapshot_files, sim_folder,
    write_movement. simpl. by rewrite lookup_insert_eq.
Qed.

Lemma save_movements_environment :
  preserves (Maze := Maze) environment_files save_movements.
Proof.
  intros w. unfold save_movements, bind, modify, environment_files, sim_folder,
    write_movement. simpl. by rewrite lookup_insert_eq.
Qed.

Lemma tick_snapshot env : preserves (Maze := Maze) snapshot_files (tick env).
Proof.
  unfold tick, tick_body.
  apply preserves_bind; [frame | intros _].
  apply preserves_bind; [frame | intros _].
  apply preserves_bind; [frame | intros _].
  apply preserves_bind; [apply save_movements_snapshot | intros _].
  unfold advance. frame.
Qed.

Lemma tick_environment env :
  preserves (Maze := Maze) environment_files (tick env).
Proof.
  unfold tick, tick_body.
  apply preserves_bind; [frame | intros _].
  apply preserves_bind; [frame | intros _].
  apply preserves_bind; [frame | intros _].
  apply preserves_bind; [apply save_movements_environment | intros _].
  unfold advance. frame.
Qed.

(** [sim_frontend] writes one environment file and nothing else of the
    folder. *)
Lemma poll_sim_frontend_snapshot :
  preserves (Maze := Maze) snapshot_files (poll sim_frontend).
Proof.
  intros w. unfold poll. rewrite sim_frontend_eq. unfold write_environment.
  destruct (fs_storage w !! sim_code w) as [t|] eqn:Ht; [| done].
  destruct (decide (t_environment t = ∅)); [done |].
  unfold snapshot_files, sim_folder. simpl. by rewrite lookup_insert_eq, Ht.
Qed.

Lemma poll_sim_frontend_movement :
  preserves (Maze := Maze) movement_files (poll sim_frontend).
Proof.
  intros w. unfold poll. rewrite sim_frontend_eq. unfold write_environment.
  destruct (fs_storage w !! sim_code w) as [t|] eqn:Ht; [| done].
  destruct (decide (t_environment t = ∅)); [done |].
  unfold movement_files, sim_folder. simpl. by rewrite lookup_insert_eq, Ht.
Qed.

Lemma server_loop_snapshot fuel :
  preserves (Maze := Maze) snapshot_files (server_loop sim_frontend fuel).
Proof.
  induction fuel as [|fuel IH]; cbn [server_loop].
  - apply preserves_bind; [frame_step | intros c]. case_decide; frame_step.
  - apply preserves_bind; [frame_step | intros c].
    case_decide; [frame_step |].
    apply preserves_bind; [| intros _; apply IH].
    unfold loop_body.
    apply preserves_bind; [apply poll_sim_frontend_snapshot | intros [env|]].
    + apply tick_snapshot.
    + frame_step.
Qed.

Lemma start_server_snapshot fuel n :
  preserves (Maze := Maze) snapshot_files (start_server sim_frontend fuel n).
Proof.
  unfold start_server, start_server_enter.
  apply preserves_bind; [frame | intros _]. apply server_loop_snapshot.
Qed.

(** The movement files after a completed tick. *)
Lemma tick_Ok_movement env w w' k :
  tick env w = (Ok tt, w') → k ≠ step w →
  movement_file k w' = movement_file k w.
Proof.
  intros Htick Hk.
  apply tick_Ok_inv in Htick as (w1 & w2 & w3 & w4 & H1 & H2 & H3 & H4 & H5).
  pose proof (cleanup_objects_outside w) as E1. rewrite H1 in E1.
  pose proof (move_personas_outside env w1) as E2. rewrite H2 in E2.
  pose proof (decide_personas_outside w2) as E3. rewrite H3 in E3.
  pose proof (advance_registry w4) as E5. rewrite H5 in E5.
  pose proof (advance_Ok _ _ H5) as E5c.
  pose proof (save_movements_clock w3) as E4c. rewrite H4 in E4c.
  unfold outside_move, outside_decide, clock in *. simpl in *.
  injection E1 as E1s _ _ _ E1c E1f _ _ _ _.
  injection E2 as E2s _ _ _ E2c E2f _ _ _ _.
  injection E3 as E3s _ _ _ E3c _ _ _ _ E3f _ _.
  injection E5 as _ _ _ E5f. injection E5c as _ _ _ _ E5c.
  injection E4c as _ _ _ _ E4c.
  unfold save_movements, bind, modify in H4. injection H4 as <-.
  simpl in *.
  assert (sim_code w3 = sim_code w) as Ec by congruence.
  assert (step w3 = step w) as Es by congruence.
  assert (fs_storage w3 = fs_storage w) as Ef by congruence.
  unfold movement_file, sim_folder. rewrite E5c, E5f, Ec. simpl.
  unfold write_movement. rewrite Ef, lookup_insert_eq. simpl.
  rewrite Es, lookup_insert_ne by done.
  by destruct (fs_storage w !! sim_code w).
Qed.

(** One turn of the loop over the headless bridge that returns is a
    completed tick. *)
Lemma loop_body_sim_frontend_Ok w w' :
  loop_body sim_frontend w = (Ok tt, w') →
  ∃ t w0,
    sim_folder w = Some t ∧
    t_environment t ≠ ∅ ∧
    poll sim_frontend w = (Ok (Some (bd_persona (backend_data w))), w0) ∧
    tick (bd_persona (backend_data w)) w0 = (Ok tt, w').
Proof.
  unfold loop_body. intros (fd & w0 & Hpoll & Htick)%bind_Ok_inv.
  destruct (sim_folder w) as [t|] eqn:Ht.
  - destruct (decide (t_environment t = ∅)) as [Hempty|Henv].
    { unfold poll in Hpoll. rewrite sim_frontend_eq in Hpoll.
      unfold write_environment, sim_folder in *.
      by rewrite Ht, decide_True in Hpoll. }
    pose proof (poll_sim_frontend_Ok w t Ht Henv) as E. rewrite E in Hpoll.
    injection Hpoll as <- <-. exists t. eexists.
    split; [done |]. split; [done |]. split; [exact E | exact Htick].
  - unfold poll in Hpoll. rewrite sim_frontend_eq in Hpoll.
    unfold write_environment, sim_folder in *. by rewrite Ht in Hpoll.
Qed.

Lemma loop_body_bare_environment w w' :
  loop_body sim_frontend w = (Ok tt, w') → bare_environment w'.
Proof.
  intros (t & w0 & Ht & Htenv & Hpoll & Htick)%loop_body_sim_frontend_Ok.
  rewrite (poll_sim_frontend_Ok w t Ht Htenv) in Hpoll. injection Hpoll as <-.
  set (w0 := set_fs_storage _ _) in Htick.
  exists (bd_persona (backend_data w)). split.
  - rewrite environment_file_files.
    pose proof (tick_environment (bd_persona (backend_data w)) w0) as E.
    rewrite Htick in E. simpl in E. rewrite E.
    pose proof (tick_Ok_clock _ _ _ Htick) as Hc. unfold clock in Hc.
    injection Hc as -> _ _ _ _.
    unfold environment_files, sim_folder. simpl.
    by rewrite lookup_insert_eq; simpl; rewrite lookup_insert_eq.
  - intros nm Hnm.
    pose proof (tick_enrolment (bd_persona (backend_data w)) w0) as Een.
    rewrite Htick in Een. simpl in Een. unfold enrolment in Een.
    injection Een as Enames _ _ _ _. rewrite Enames in Hnm.
    destruct (tick_Ok_tiles _ _ _ Htick) as [Hin _]. by apply Hin.
Qed.

Lemma server_loop_bare_environment fuel w w' :
  server_loop sim_frontend fuel w = (Ok true, w') →
  (int_counter w = 0 → bare_environment w) →
  bare_environment w'.
Proof.
  revert w. induction fuel as [|fuel IH]; intros w; cbn [server_loop];
    unfold bind at 1; unfold gets at 1; case_decide as Hc.
  - intros [= <-] Hw. by apply Hw.
  - done.
  - intros [= <-] Hw. by apply Hw.
  - intros ([] & w1 & H1 & Hl)%bind_Ok_inv _.
    apply (IH w1 Hl). intros _. by apply (loop_body_bare_environment w).
Qed.

Lemma save_eq w :
  save w =
  match sim_folder w with
  | None => (Raise (FileNotFoundError (sim_code w)), w)
  | Some t =>
      (Ok tt,
       set_fs_storage
         (<[sim_code w :=
              mkTree
                (Some (mkMeta (fork_sim_code w) (start_time w) (curr_time w)
                         (sec_per_step w) (maze_name (maze w))
                         (persona_names w) (step w)))
                (t_environment t) (t_movement t)
                (foldl (λ d '(persona_name, persona),
                          <[persona_name := persona]> d)
                   (t_personas t) (personas w))]> (fs_storage w)) w)
  end.
Proof.
  unfold save, bind, gets, sim_folder. simpl.
  by destruct (fs_storage w !! sim_code w).
Qed.

(** X11. A simulation that has been run offline for at least one tick and
    then saved cannot be forked: the environment file of its step was
    written by [sim_frontend] and holds bare tiles, where the constructor
    subscripts each entry with ["x"], so that constructing a server from it
    raises [TypeError] at the first persona. *)
Theorem saved_run_cannot_be_forked fuel n w w1 w2 C fp :
  start_server sim_frontend fuel n w = (Ok true, w1) →
  n ≠ 0 →
  personas w ≠ [] →
  save w1 = (Ok tt, w2) →
  C ≠ sim_code w →
  (ReverieServer_init (Maze := Maze) (sim_code w) C fp (fs_storage w2)).1.1
  = Raise TypeError.
Proof.
  intros Hrun Hn Hps Hsave HC.
  pose proof (start_server_enrolment sim_frontend fuel n w) as Een.
  rewrite Hrun in Een. simpl in Een. unfold enrolment in Een.
  injection Een as Enames Esim _ _ _.
  assert (bare_environment w1) as (environment & Henv & Hall).
  { unfold start_server in Hrun.
    apply bind_Ok_inv in Hrun as ([] & w0 & H0 & Hloop).
    apply (server_loop_bare_environment _ _ _ Hloop).
    unfold start_server_enter, bind, modify in H0. injection H0 as <-.
    simpl. done. }
  rewrite save_eq in Hsave.
  unfold environment_file in Henv.
  destruct (sim_folder w1) as [t|] eqn:Ht; [| done].
  injection Hsave as <-. simpl in *. rewrite <- Esim.
  assert (sim_code w1 ≠ C) as Hne by (by rewrite Esim).
  match goal with |- context [<[_ := ?T]> _] => set (saved := T) end.
  pose proof (ReverieServer_init_forked (Maze := Maze) (sim_code w1) C fp
                (<[sim_code w1 := saved]> (fs_storage w1)) saved _ Hne
                (lookup_insert_eq (fs_storage w1) (sim_code w1) saved) eq_refl)
    as E.
  cbv zeta in E. simpl in E. rewrite Henv in E. rewrite E. clear E.
  destruct (personas w) as [|[x p] ps] eqn:Ew; [done |].
  assert (∃ rest, persona_names w1 = x :: rest) as [rest Erest].
  { rewrite Enames. unfold persona_names. rewrite Ew. by eexists. }
  rewrite Erest. cbn [for_each].
  set (w0 := mkWorld _ _ _ _ _ _ _ _ _ _ _ _ _ _ _ _).
  set (copy := mkTree _ _ _ _).
  pose proof (load_persona_eq (EnvTile <$> environment) copy x w0) as E.
  destruct (Hall x) as [tile Htile].
  { rewrite Erest. apply list_elem_of_here. }
  rewrite lookup_fmap, Htile in E. simpl in E.
  by rewrite (bind_Raise _ _ _ _ _ E).
Qed.

End files.

Section runs_and_forks.
Context {Maze : Type} {maze_ops : MazeOps Maze}
  {persona_ops : PersonaOps Maze} {calendar : Calendar}.
Implicit Types w : World (Maze := Maze).

(** The batch of a completed tick. *)
Lemma tick_Ok_batch env w w' :
  tick env w = (Ok tt, w') →
  ∃ batch,
    movement_file (step w) w' = Some batch ∧
    mv_meta_curr_time batch = Some (curr_time w) ∧
    ∀ nm, is_Some (mv_persona batch !! nm) ↔ nm ∈ persona_names w.
Proof.
  intros Htick. rewrite tick_to_batch_advance in Htick.
  apply bind_Ok_inv in Htick as ([] & w4 & H4 & H5).
  destruct (tick_to_batch_Ok env w w4 H4) as [Hfile Htime].
  pose proof (advance_keeps_batch w4) as E5. rewrite H5 in E5. simpl in E5.
  injection E5 as _ E5f.
  pose proof (advance_Ok _ _ H5) as E5c. unfold clock in E5c.
  injection E5c as _ _ _ _ E5c.
  exists (movements w4). split; [| split; [done |]].
  - unfold movement_file, sim_folder in *. by rewrite E5f, E5c.
  - unfold tick_to_batch in H4.
    apply bind_Ok_inv in H4 as ([] & w1 & H1 & H4).
    apply bind_Ok_inv in H4 as ([] & w2 & H2 & H4).
    apply bind_Ok_inv in H4 as ([] & w3 & H3 & H4).
    pose proof (cleanup_objects_outside w) as E1. rewrite H1 in E1.
    pose proof (move_personas_outside env w1) as E2. rewrite H2 in E2.
    unfold outside_move in *. simpl in *.
    injection E1 as _ _ _ _ _ _ _ E1p _ _.
    injection E2 as _ _ _ _ _ _ _ E2p _ _.
    apply decide_personas_Ok in H3 as [_ Hkeys].
    apply save_movements_Ok in H4 as (Hmv & _).
    intros nm. rewrite Hmv. simpl. rewrite Hkeys.
    unfold persona_names. by rewrite E2p, E1p.
Qed.

(** One turn of the loop over the headless bridge. *)
Lemma loop_body_sim_frontend_batch w w1 :
  loop_body sim_frontend w = (Ok tt, w1) →
  clock w1 = (step w + 1, curr_time w + sec_per_step w, sec_per_step w,
              int_counter w - 1, sim_code w) ∧
  persona_names w1 = persona_names w ∧
  (∃ batch,
     movement_file (step w) w1 = Some batch ∧
     mv_meta_curr_time batch = Some (curr_time w) ∧
     ∀ nm, is_Some (mv_persona batch !! nm) ↔ nm ∈ persona_names w) ∧
  ∀ k, k ≠ step w → movement_file k w1 = movement_file k w.
Proof.
  intros (t & w0 & Ht & _ & Hpoll & Htick)%loop_body_sim_frontend_Ok.
  pose proof (poll_controller sim_frontend w) as Ectl.
  rewrite Hpoll in Ectl. simpl in Ectl. unfold controller, clock in Ectl.
  injection Ectl as Es Et Esps Ei Esim _ Ep _ _ _ _ _.
  pose proof (poll_sim_frontend_movement w) as Emv.
  rewrite Hpoll in Emv. simpl in Emv.
  pose proof (tick_Ok_clock _ _ _ Htick) as Hc.
  rewrite Es, Et, Esps, Ei, Esim in Hc.
  pose proof (tick_enrolment (bd_persona (backend_data w)) w0) as Een.
  rewrite Htick in Een. simpl in Een. unfold enrolment in Een.
  injection Een as Enames _ _ _ _.
  assert (persona_names w0 = persona_names w) as Enames0.
  { unfold persona_names. by rewrite Ep. }
  split; [done |]. split; [congruence |]. split.
  - destruct (tick_Ok_batch _ _ _ Htick) as (batch & Hfile & Htime & Hkeys).
    exists batch. rewrite <- Es, <- Et. split; [done |]. split; [done |].
    intros nm. by rewrite Hkeys, Enames0.
  - intros k Hk.
    rewrite (tick_Ok_movement _ _ _ k Htick) by (by rewrite Es).
    by rewrite !movement_file_files, Emv.
Qed.

Lemma server_loop_batches fuel w w' b :
  server_loop sim_frontend fuel w = (Ok b, w') →
  (∀ k, step w ≤ k < step w' →
     ∃ batch,
       movement_file k w' = Some batch ∧
       mv_meta_curr_time batch =
         Some (curr_time w + (k - step w) * sec_per_step w) ∧
       ∀ nm, is_Some (mv_persona batch !! nm) ↔ nm ∈ persona_names w) ∧
  (∀ k, k < step w → movement_file k w' = movement_file k w).
Proof.
  revert w. induction fuel as [|fuel IH]; intros w; cbn [server_loop];
    unfold bind at 1; unfold gets at 1; case_decide as Hc;
    try (intros [= <- <-]; split; [intros k ?; lia | done]).
  intros ([] & w1 & H1 & Hl)%bind_Ok_inv.
  destruct (loop_body_sim_frontend_batch w w1 H1)
    as (Hclk & Hnames & (batch & Hfile & Htime & Hkeys) & Hother).
  unfold clock in Hclk. injection Hclk as Es Et Esps _ _.
  destruct (IH w1 Hl) as [Hnew Hold].
  destruct (server_loop_Ok _ _ _ _ _ Hl) as (j & Hj & Hstep & _).
  split.
  - intros k Hk. destruct (decide (k = step w)) as [->|Hne].
    + exists batch. rewrite Hold by lia. split; [done |].
      split; [| done]. rewrite Htime. f_equal. lia.
    + destruct (Hnew k) as (batch' & Hfile' & Htime' & Hkeys'); [lia |].
      exists batch'. split; [done |]. split.
      * rewrite Htime', Es, Et, Esps. f_equal. lia.
      * intros nm. by rewrite Hkeys', Hnames.
  - intros k Hk. rewrite Hold by lia. apply Hother. lia.
Qed.

(** X13. A run of [n] ticks over the headless bridge that returns has
    written one movement file for each of its steps, [step] to
    [step + n - 1]: the file of the [k]-th tick carries the clock at the
    start of that tick and one record for each registered persona and no
    other.  Movement files of earlier steps are as they were. *)
Theorem run_writes_every_step fuel n w w' :
  start_server sim_frontend fuel n w = (Ok true, w') →
  (∀ k, 0 ≤ k < n →
     ∃ batch,
       movement_file (step w + k) w' = Some batch ∧
       mv_meta_curr_time batch = Some (curr_time w + k * sec_per_step w) ∧
       ∀ nm, is_Some (mv_persona batch !! nm) ↔ nm ∈ persona_names w) ∧
  (∀ k, k < step w → movement_file k w' = movement_file k w).
Proof.
  intros Hrun.
  destruct (start_server_Ok _ _ _ _ _ _ Hrun) as (j & _ & Hstep & _ & _ & Hj).
  rewrite (Hj eq_refl) in Hstep.
  unfold start_server in Hrun.
  apply bind_Ok_inv in Hrun as ([] & w0 & H0 & Hloop).
  unfold start_server_enter, bind, modify in H0. injection H0 as <-.
  destruct (server_loop_batches _ _ _ _ Hloop) as [Hnew Hold].
  simpl in Hnew, Hold. split; [| done].
  intros k Hk. destruct (Hnew (step w + k)) as (batch & Hfile & Htime & Hkeys);
    [lia |].
  exists batch. split; [done |]. split; [| done].
  rewrite Htime. f_equal. lia.
Qed.



(** X14. Running does not save: [start_server] over the headless bridge,
    however it ends, leaves [meta.json] and the persona folders of its
    simulation as they were, so that a server constructed from the folder
    afterwards starts at the step and the clock of that [meta.json], not at
    those the run has reached. *)
Theorem unsaved_run_is_not_forked fuel n w t m :
  sim_folder w = Some t →
  t_meta t = Some m →
  let w' := (start_server sim_frontend fuel n w).2 in
  (∃ t', sim_folder w' = Some t' ∧ t_meta t' = Some m ∧
         t_personas t' = t_personas t) ∧
  ∀ C fp wC fpC fsC,
    ReverieServer_init (sim_code w) C fp (fs_storage w') = (Ok wC, fpC, fsC) →
    (step wC, curr_time wC, sec_per_step wC) =
      (meta_step m, meta_curr_time m, meta_sec_per_step m).
Proof.
  intros Ht Hm w'.
  pose proof (start_server_snapshot fuel n w) as E. fold w' in E.
  unfold snapshot_files in E. rewrite Ht in E. simpl in E.
  injection E as Esim Emeta Eps. rewrite Hm in Emeta.
  destruct (sim_folder w') as [t'|] eqn:Ht'; [| done]. simpl in *.
  split; [by exists t' |].
  intros C fp wC fpC fsC Hinit.
  destruct (ReverieServer_init_Ok_source _ _ _ _ _ _ _ Hinit) as [Hne _].
  unfold sim_folder in Ht'. rewrite Esim in Ht'.
  rewrite (ReverieServer_init_forked (sim_code w) C fp _ t' m Hne Ht' Emeta)
    in Hinit.
  cbv zeta in Hinit.
  destruct (t_environment t' !! meta_step m) as [init_env|]; [| done].
  set (copy := mkTree _ _ _ _) in Hinit.
  set (w0 := mkWorld _ _ _ _ _ _ _ _ _ _ _ _ _ _ _ _) in Hinit.
  destruct (for_each _ _ w0) as [[[]|e] w2] eqn:Hload; [| done].
  injection Hinit as -> _ _.
  pose proof (load_loop_attributes init_env copy (meta_persona_names m) w0) as F.
  rewrite Hload in F. simpl in F. unfold clock in F.
  by injection F as -> -> -> _ _ _ _ _.
Qed.

End runs_and_forks.

Section first_tick.
Context {Maze : Type} {maze_ops : MazeOps Maze}
  {persona_ops : PersonaOps Maze} {calendar : Calendar}.
Implicit Types w : World (Maze := Maze).

(** The constructor leaves [frontend_pos] in agreement with
    [personas_tile] on every registered persona. *)
Lemma ReverieServer_init_positions A B fp fs w fp' fs' :
  ReverieServer_init A B fp fs = (Ok w, fp', fs') →
  ∀ nm, nm ∈ persona_names w →
    is_Some (personas_tile w !! nm) ∧
    frontend_pos w !! nm = personas_tile w !! nm.
Proof.
  intros Hinit.
  destruct (ReverieServer_init_Ok_source _ _ _ _ _ _ _ Hinit)
    as (Hne & t & m & Ht & Hm).
  rewrite (ReverieServer_init_forked A B fp fs t m Hne Ht Hm) in Hinit.
  cbv zeta in Hinit.
  destruct (t_environment t !! meta_step m) as [init_env|]; [| done].
  set (copy := mkTree _ _ _ _) in Hinit.
  set (w0 := mkWorld _ _ _ _ _ _ _ _ _ _ _ _ _ _ _ _) in Hinit.
  destruct (for_each _ _ w0) as [[[]|e] w1] eqn:Hload; [| done].
  injection Hinit as -> _ _.
  destruct (load_loop_Ok _ _ _ _ _ Hload) as (Hnames & _ & Hin & _).
  intros nm Hnm. apply Hnames in Hnm as [[]%elem_of_nil|Hnm].
  destruct (Hin nm Hnm) as (x & y & node & _ & -> & ->). eauto.
Qed.

(** The one turn of a loop that was asked for one tick and has returned. *)
Lemma server_loop_one fuel w w' :
  int_counter w = 1 →
  server_loop sim_frontend fuel w = (Ok true, w') →
  loop_body sim_frontend w = (Ok tt, w').
Proof.
  intros Hone. destruct fuel as [|fuel]; cbn [server_loop];
    unfold bind at 1; unfold gets at 1; rewrite Hone;
    (rewrite decide_False by done); [done |].
  intros ([] & w1 & H1 & Hl)%bind_Ok_inv.
  destruct (loop_body_sim_frontend_batch w w1 H1) as (Hclk & _).
  unfold clock in Hclk. injection Hclk as _ _ _ Hc _. rewrite Hone in Hc.
  destruct fuel as [|fuel]; cbn [server_loop] in Hl;
    unfold bind at 1 in Hl; unfold gets at 1 in Hl; rewrite Hc in Hl;
    simpl in Hl; by injection Hl as <-.
Qed.

(** X15. The first tick of a server moves nobody: [start_server] hands
    [frontend_pos], which the constructor has filled with the start nodes,
    to [sim_frontend], and the update that comes back puts every registered
    persona on the tile it is on already. *)
Theorem first_tick_moves_nobody A B fp fs w fp' fs' fuel w1 :
  ReverieServer_init A B fp fs = (Ok w, fp', fs') →
  start_server sim_frontend fuel 1 w = (Ok true, w1) →
  step w1 = step w + 1 ∧
  ∀ nm, nm ∈ persona_names w →
    is_Some (personas_tile w !! nm) ∧
    personas_tile w1 !! nm = personas_tile w !! nm.
Proof.
  intros Hinit Hrun.
  pose proof (ReverieServer_init_positions _ _ _ _ _ _ _ Hinit) as Hpos.
  unfold start_server in Hrun.
  apply bind_Ok_inv in Hrun as ([] & w0 & H0 & Hloop).
  unfold start_server_enter, bind, modify in H0. injection H0 as <-.
  apply server_loop_one in Hloop; [| done].
  destruct (loop_body_sim_frontend_batch _ _ Hloop) as (Hclk & _).
  unfold clock in Hclk. injection Hclk as Hstep _ _ _ _. simpl in Hstep.
  split; [done |].
  apply loop_body_sim_frontend_Ok in Hloop as (t & w0 & _ & _ & Hpoll & Htick).
  simpl in Hpoll, Htick.
  pose proof (poll_controller sim_frontend
                (set_int_counter 1
                   (set_game_obj_cleanup []
                      (set_backend_data
                         (mkBackendData (curr_time w) (frontend_pos w)) w))))
    as Ectl.
  rewrite Hpoll in Ectl. simpl in Ectl. unfold controller in Ectl.
  injection Ectl as _ _ _ _ _ _ Ep Et _ _ _ _.
  destruct (tick_Ok_tiles _ _ _ Htick) as [Hin _].
  intros nm Hnm. destruct (Hpos nm Hnm) as [Hsome Hfp].
  split; [done |].
  assert (nm ∈ persona_names w0) as Hnm0.
  { unfold persona_names in *. by rewrite Ep. }
  destruct (Hin nm Hnm0) as [_ ->]. done.
Qed.

End first_tick.

(** * The further properties at the example world *)

Lemma start_server_missing_folder_witness :
  fs_storage trial1_without_folder !! sim_code trial1_without_folder = None ∧
  start_server (persona_ops := stay_put) (calendar := day_number)
    sim_frontend 1 1 trial1_without_folder =
  (Raise (FileNotFoundError "trial1"),
   (start_server_enter 1 trial1_without_folder).2).
Proof.
  assert (fs_storage trial1_without_folder
            !! sim_code trial1_without_folder = None) as E
    by (vm_compute; reflexivity).
  split; [exact E |].
  exact (start_server_missing_folder
           (persona_ops := stay_put) (calendar := day_number)
           0 1 trial1_without_folder E ltac:(lia)).
Defined.

Lemma update_without_persona_witness :
  isabella_only !! "Klaus Mueller" = None ∧
  ∃ w',
    tick (persona_ops := stay_put) (calendar := day_number)
      isabella_only trial1 = (Raise (KeyError "Klaus Mueller"), w') ∧
    outside_move w' = outside_move trial1.
Proof.
  split; [reflexivity |].
  destruct (update_without_persona
              (persona_ops := stay_put) (calendar := day_number)
              isabella_only trial1 [("Isabella Rodriguez", isabella)]
              "Klaus Mueller" klaus [])
    as (w' & _ & Htick & Hout).
  - vm_compute. reflexivity.
  - intros nm' p' Hin. apply list_elem_of_singleton in Hin.
    injection Hin as -> ->. split; vm_compute; eauto.
  - reflexivity.
  - exists w'. exact (conj Htick Hout).
Defined.

Lemma fork_onto_itself_deletes_witness :
  ReverieServer_init (Maze := TileStore) "base" "base" ∅ storage0 =
  (Raise (FileNotFoundError "base"), ∅, delete "base" storage0).
Proof.
  apply (fork_onto_itself_deletes (Maze := TileStore) "base" ∅ storage0).
  vm_compute. eauto.
Defined.

Lemma failed_load_leaves_target_witness :
  is_Some ((ReverieServer_init (Maze := TileStore) "base" "trial1" ∅
              storage2).2 !! "trial1") ∧
  (ReverieServer_init (Maze := TileStore) "base" "trial1" ∅ storage2).1.1
  = Raise (KeyError "Klaus Mueller").
Proof.
  destruct (failed_load_leaves_target (Maze := TileStore)
              "base" "trial1" ∅ storage2 lonely_tree base_meta)
    as (Hfs & _ & Hkey); [done | reflexivity | reflexivity |].
  split.
  - rewrite Hfs, lookup_insert_eq. eauto.
  - apply (Hkey {[ "Isabella Rodriguez" := EnvNode 10 10 (10, 10) ]}
             ["Isabella Rodriguez"] "Klaus Mueller" []);
      [reflexivity | reflexivity | | reflexivity].
    intros nm' Hin. apply list_elem_of_singleton in Hin as ->.
    split; [by exists 10, 10, (10, 10) | vm_compute; eauto].
Defined.

Lemma constructor_registers_personas_witness :
  NoDup (persona_names trial1) ∧
  ∀ nm, nm ∈ persona_names trial1 ↔ nm ∈ meta_persona_names base_meta.
Proof.
  destruct (constructor_registers_personas
              "base" "trial1" ∅ storage0 trial1 (frontend_pos trial1)
              (fs_storage trial1) trial1_built)
    as (t & m & init_env & Ht & Hm & _ & _ & _ & Hnd & Hnames & _).
  vm_compute in Ht. injection Ht as <-. vm_compute in Hm. injection Hm as <-.
  exact (conj Hnd Hnames).
Defined.

Lemma clock_overflow_after_step_witness :
  let run :=
    tick (persona_ops := stay_put) (calendar := day_number)
      start_positions trial1_at_the_end in
  ¬ (0 ≤ curr_time trial1_at_the_end + sec_per_step trial1_at_the_end
       ≤ datetime_max) ∧
  run.1 = Raise OverflowError ∧
  clock run.2 =
    (step trial1_at_the_end + 1, curr_time trial1_at_the_end,
     sec_per_step trial1_at_the_end, int_counter trial1_at_the_end,
     sim_code trial1_at_the_end).
Proof.
  intros run.
  assert (¬ (0 ≤ curr_time trial1_at_the_end + sec_per_step trial1_at_the_end
               ≤ datetime_max)) as Hrange.
  { assert (curr_time trial1_at_the_end = datetime_max) as -> by reflexivity.
    assert (sec_per_step trial1_at_the_end = 600) as ->
      by (vm_compute; reflexivity).
    unfold datetime_max. lia. }
  split; [exact Hrange |].
  destruct (clock_overflow_after_step
              (persona_ops := stay_put) (calendar := day_number)
              start_positions trial1_at_the_end Hrange) as [_ Hstep].
  destruct (Hstep (tick_to_batch (persona_ops := stay_put)
                     (calendar := day_number) start_positions
                     trial1_at_the_end).2)
    as (Htick & Hclk & _).
  - apply run_eq. vm_compute. reflexivity.
  - split; [| exact Hclk]. unfold run. rewrite Htick. reflexivity.
Defined.

Lemma tick_moves_to_update_witness :
  let run1 :=
    tick (persona_ops := stay_put) (calendar := day_number)
      start_positions trial1 in
  run1 = (Ok tt, run1.2) ∧
  ∀ nm, nm ∈ persona_names trial1 →
    ∃ tile, start_positions !! nm = Some tile ∧
            personas_tile run1.2 !! nm = Some tile.
Proof.
  intros run1.
  assert (run1 = (Ok tt, run1.2)) as E1
    by (apply run_eq; vm_compute; reflexivity).
  split; [exact E1 |].
  exact (proj1 (tick_moves_to_update
                  (persona_ops := stay_put) (calendar := day_number)
                  start_positions trial1 run1.2 E1)).
Defined.

Lemma saved_run_cannot_be_forked_witness :
  step (trial1_after 1) = 1 ∧
  (ReverieServer_init (Maze := TileStore) "trial1" "trial2" ∅
     (fs_storage (trial1_saved_after 1))).1.1 = Raise TypeError.
Proof.
  split; [vm_compute; reflexivity |].
  apply (saved_run_cannot_be_forked
           (persona_ops := stay_put) (calendar := day_number)
           1 1 trial1 (trial1_after 1) (trial1_saved_after 1) "trial2" ∅).
  - unfold trial1_after. apply run_eq. vm_compute. reflexivity.
  - lia.
  - rewrite trial1_personas. discriminate.
  - unfold trial1_saved_after. apply run_eq. vm_compute. reflexivity.
  - vm_compute. discriminate.
Defined.


Lemma run_writes_every_step_witness :
  start_server (persona_ops := stay_put) (calendar := day_number)
    sim_frontend 2 2 trial1 = (Ok true, trial1_after 2) ∧
  ∀ k, 0 ≤ k < 2 →
    ∃ batch,
      movement_file (step trial1 + k) (trial1_after 2) = Some batch ∧
      mv_meta_curr_time batch =
        Some (curr_time trial1 + k * sec_per_step trial1).
Proof.
  assert (start_server (persona_ops := stay_put) (calendar := day_number)
            sim_frontend 2 2 trial1 = (Ok true, trial1_after 2)) as E1.
  { unfold trial1_after. apply run_eq. vm_compute. reflexivity. }
  split; [exact E1 |].
  intros k Hk.
  destruct (proj1 (run_writes_every_step
                     (persona_ops := stay_put) (calendar := day_number)
                     2 2 trial1 (trial1_after 2) E1) k Hk)
    as (batch & Hfile & Htime & _).
  exists batch. exact (conj Hfile Htime).
Defined.

Lemma unsaved_run_is_not_forked_witness :
  step (start_server (persona_ops := stay_put) (calendar := day_number)
          sim_frontend 1 1 trial1).2 = 1 ∧
  ∀ wC fpC fsC,
    ReverieServer_init (Maze := TileStore) (sim_code trial1) "trial2" ∅
      (fs_storage
         (start_server (persona_ops := stay_put) (calendar := day_number)
            sim_frontend 1 1 trial1).2)
    = (Ok wC, fpC, fsC) →
    step wC = 0.
Proof.
  split; [vm_compute; reflexivity |].
  intros wC fpC fsC Hinit.
  assert (sim_folder trial1 ≫= t_meta = Some base_meta) as E
    by (vm_compute; reflexivity).
  destruct (sim_folder trial1) as [t|] eqn:Ht; [| discriminate E].
  destruct (unsaved_run_is_not_forked
              (persona_ops := stay_put) (calendar := day_number)
              1 1 trial1 t base_meta Ht E) as [_ Hfork].
  pose proof (Hfork "trial2" ∅ wC fpC fsC Hinit) as F.
  injection F as F _ _. exact F.
Defined.

Lemma first_tick_moves_nobody_witness :
  start_server (persona_ops := stay_put) (calendar := day_number)
    sim_frontend 1 1 trial1 = (Ok true, trial1_after 1) ∧
  ∀ nm, nm ∈ persona_names trial1 →
    personas_tile (trial1_after 1) !! nm = personas_tile trial1 !! nm.
Proof.
  assert (start_server (persona_ops := stay_put) (calendar := day_number)
            sim_frontend 1 1 trial1 = (Ok true, trial1_after 1)) as E1.
  { unfold trial1_after. apply run_eq. vm_compute. reflexivity. }
  split; [exact E1 |].
  intros nm Hnm.
  exact (proj2 (proj2 (first_tick_moves_nobody
                         (persona_ops := stay_put) (calendar := day_number)
                         "base" "trial1" ∅ storage0 trial1
                         (frontend_pos trial1) (fs_storage trial1) 1
                         (trial1_after 1) trial1_built E1) nm Hnm)).
Defined.
